(** * FastLoop: a shallow embedding of the rendering core

    Two source files are covered:
    - [javascript-fastloop.js], the standalone [FastLoop] class;
    - the jQuery plugin [$.fn.loopHtml].

    Strings are sequences of 8-bit code units ([string]); items are finite
    maps from property names to displayable values; the DOM is a store of
    element nodes addressed by identity, a child list for the container
    and one child list per document fragment.  The animation frames a
    render schedules are a queue the host runs one callback at a time.

    The event registry of the class ([on], [off], [emit]) takes no part
    in rendering and is modelled on its own.  [destroy] is left out: it
    sets the template to [null], which an instance here cannot hold. *)

From Stdlib Require Import ZArith Ascii String DecimalString.
From Equations Require Import Equations.
From Equations.Prop Require Import Logic.
From stdpp Require Import gmap strings list fin_maps.

Local Open Scope string_scope.
Local Open Scope list_scope.

(** ** JavaScript values stored in items *)

(** The displayable values an item can hold.  [VNum z] is an integer-valued
    number (its string form is then its decimal numeral); [VNaN] is the one
    non-integer number kept, because it is falsy. *)
Inductive value : Type :=
  | VUndefined
  | VNull
  | VBool (b : bool)
  | VNum (z : Z)
  | VNaN
  | VStr (s : string).

(** An item is an object used as a map: property name to value.  A lookup
    that finds nothing is JavaScript's [undefined]. *)
Abbreviation Item := (gmap string value).

Definition get (item : Item) (key : string) : value :=
  match item !! key with
  | Some v => v
  | None => VUndefined
  end.

Definition string_of_nat (n : nat) : string :=
  NilZero.string_of_uint (Nat.to_uint n).

Definition string_of_Z (z : Z) : string :=
  NilZero.string_of_int (Z.to_int z).

(** [ToString] of the language standard, on the values above. *)
Definition ToString (v : value) : string :=
  match v with
  | VUndefined => "undefined"
  | VNull => "null"
  | VBool true => "true"
  | VBool false => "false"
  | VNum z => string_of_Z z
  | VNaN => "NaN"
  | VStr s => s
  end.

(** [ToBoolean]: the falsy values are undefined, null, false, 0, NaN and
    the empty string. *)
Definition ToBoolean (v : value) : bool :=
  match v with
  | VUndefined | VNull | VNaN => false
  | VBool b => b
  | VNum z => negb (Z.eqb z 0)
  | VStr s => negb (String.eqb s "")
  end.

Definition is_nullish (v : value) : bool :=
  match v with
  | VUndefined | VNull => true
  | _ => false
  end.

(** [v ?? ''] followed by the string coercion [replace] applies to what the
    replacer returns. *)
Definition nullish_coalesce (v : value) : string :=
  if is_nullish v then "" else ToString v.

(** [v || ''] followed by the same coercion. *)
Definition logical_or (v : value) : string :=
  if ToBoolean v then ToString v else "".

(** ** The regular expression [/{{(\w+)}}/g] *)

Definition is_word_char (c : ascii) : bool :=
  let n := nat_of_ascii c in
  (Nat.leb 48 n && Nat.leb n 57) || (Nat.leb 65 n && Nat.leb n 90)
  || (Nat.leb 97 n && Nat.leb n 122) || Nat.eqb n 95.

(** The greedy [\w+]: the longest run of word characters at the head of
    [s], and what follows it. *)
Fixpoint take_word (s : string) : string * string :=
  match s with
  | String c s' =>
      if is_word_char c
      then let '(w, r) := take_word s' in (String c w, r)
      else ("", s)
  | EmptyString => ("", s)
  end.

(** Strings made of word characters only. *)
Fixpoint all_word (s : string) : bool :=
  match s with
  | String c s' => is_word_char c && all_word s'
  | EmptyString => true
  end.

(** Where the greedy run of word characters stops: at the end of the
    string or before a character that is no word character. *)
Definition stops_word (s : string) : bool :=
  match s with
  | String c _ => negb (is_word_char c)
  | EmptyString => true
  end.

(** [strip_prefix p s] is what follows [p] in [s] when [s] starts with
    [p]. *)
Fixpoint strip_prefix (p s : string) : option string :=
  match p, s with
  | EmptyString, _ => Some s
  | String a p', String b s' =>
      if Ascii.eqb a b then strip_prefix p' s' else None
  | String _ _, EmptyString => None
  end.

(** One attempt of the pattern at the head of [s]: the captured key and
    the text after the match.  The character after the run of word
    characters is no word character, so no shorter run can succeed where
    the longest fails. *)
Definition match_placeholder (s : string) : option (string * string) :=
  match strip_prefix "{{" s with
  | Some r =>
      let '(key, r') := take_word r in
      match key, strip_prefix "}}" r' with
      | String _ _, Some rest => Some (key, rest)
      | _, _ => None
      end
  | None => None
  end.

Lemma strip_prefix_Some p s r : strip_prefix p s = Some r <-> s = p +:+ r.
Proof.
  revert s. induction p as [|a p IH]; intros s; simpl.
  - split; [intros [= ->]|intros ->]; reflexivity.
  - destruct s as [|b s]; [split; discriminate|].
    destruct (Ascii.eqb_spec a b) as [->|Hne].
    + rewrite IH. split; [intros ->; reflexivity|intros [= ->]; reflexivity].
    + split; [discriminate|intros [= -> _]; contradiction].
Qed.

Lemma app_String c (s t : string) : String c s +:+ t = String c (s +:+ t).
Proof. reflexivity. Qed.

Lemma length_app_string (s t : string) :
  String.length (s +:+ t) = String.length s + String.length t.
Proof.
  induction s as [|c s IH]; [reflexivity|].
  rewrite app_String. simpl. now rewrite IH.
Qed.

Lemma take_word_app s w r : take_word s = (w, r) -> s = w +:+ r.
Proof.
  revert w r. induction s as [|c s IH]; intros w r; simpl.
  - intros [= <- <-]. reflexivity.
  - destruct (is_word_char c).
    + destruct (take_word s) as [w' r'] eqn:E. intros [= <- <-].
      rewrite app_String. f_equal. apply IH. reflexivity.
    + intros [= <- <-]. reflexivity.
Qed.

Lemma match_placeholder_Some s key rest :
  match_placeholder s = Some (key, rest) ->
  s = "{{" +:+ key +:+ "}}" +:+ rest /\ key <> "".
Proof.
  unfold match_placeholder.
  destruct (strip_prefix "{{" s) as [r|] eqn:E1; [|discriminate].
  apply strip_prefix_Some in E1.
  destruct (take_word r) as [w r'] eqn:E2. apply take_word_app in E2.
  destruct w as [|c w]; [discriminate|].
  destruct (strip_prefix "}}" r') as [rest'|] eqn:E3; [|discriminate].
  apply strip_prefix_Some in E3. intros [= <- <-].
  subst. split; [reflexivity|discriminate].
Qed.

Lemma match_placeholder_shorter s key rest :
  match_placeholder s = Some (key, rest) ->
  String.length rest < String.length s.
Proof.
  intros H. apply match_placeholder_Some in H as [-> _].
  rewrite !length_app_string. simpl. lia.
Qed.

(** [String.prototype.replace] with the global pattern above and a
    replacer function: scan from the left; where the pattern matches,
    emit the replacer's result and resume after the match; elsewhere copy
    one character and move on. *)
Equations? replace_placeholders (f : string -> string) (s : string) : string
  by wf (String.length s) lt :=
  replace_placeholders f s with inspect (match_placeholder s) := {
    | exist _ (Some m) E => f (fst m) +:+ replace_placeholders f (snd m)
    | exist _ None E with s := {
        | EmptyString => EmptyString
        | String c s' => String c (replace_placeholders f s')
      }
  }.
Proof.
  - destruct m as [key rest]. eapply match_placeholder_shorter; eassumption.
  - simpl; lia.
Qed.

(** ** [String.prototype.trim] *)

(** White space and line terminators among the 8-bit code units: tab, line
    feed, vertical tab, form feed, carriage return, space and no-break
    space. *)
Definition is_space (c : ascii) : bool :=
  let n := nat_of_ascii c in
  (Nat.leb 9 n && Nat.leb n 13) || Nat.eqb n 32 || Nat.eqb n 160.

Fixpoint trim_start (s : string) : string :=
  match s with
  | String c s' => if is_space c then trim_start s' else s
  | EmptyString => EmptyString
  end.

Fixpoint trim_end (s : string) : string :=
  match s with
  | String c s' =>
      match trim_end s' with
      | EmptyString => if is_space c then EmptyString else String c EmptyString
      | t => String c t
      end
  | EmptyString => EmptyString
  end.

Definition trim (s : string) : string := trim_end (trim_start s).

(** ** The default substituter of each surface *)

Inductive surface : Type :=
  | Class    (* the FastLoop class, javascript-fastloop.js *)
  | Plugin.  (* the jQuery plugin $.fn.loopHtml *)

(** The replacer passed to [replace]: the class returns
    [item[key] ?? ''], the plugin [item[key] || '']; both return [i + 1]
    for the key [index]. *)
Definition replacer (sf : surface) (item : Item) (i : nat) (key : string)
  : string :=
  if String.eqb key "index" then string_of_nat (i + 1)
  else match sf with
       | Class => nullish_coalesce (get item key)
       | Plugin => logical_or (get item key)
       end.

Definition default_substitute (sf : surface) (template : string)
    (item : Item) (i : nat) : string :=
  replace_placeholders (replacer sf item i) template.

(** ** Exceptions, configuration and the document *)

Inductive exn : Type :=
  | TypeError (msg : string)   (* raised by the language or the DOM *)
  | Error (msg : string).      (* [throw new Error(msg)] *)

(** What [console.error] was called with. *)
Inductive log_entry : Type :=
  | Message (msg : string)
  | RenderError (e : exn).     (* [console.error('Render error:', e)] *)

Abbreviation NodeId := nat.

(** An element node: the element itself (tag and attributes, opaque), its
    inner markup, and the properties callers attached to the object. *)
Record Element : Type := {
  shell : string;
  innerHTML : string;
  expando : gmap string value;
}.

(** The [data] option.  Besides arrays two kinds of non-arrays are kept:
    [null]/[undefined], on which reading [.length] raises, and values
    without a [length] property (numbers, booleans, plain objects).
    Array-likes such as strings are left out. *)
Inductive jsdata : Type :=
  | DArray (items : list Item)
  | DNullish
  | DNoLength.

Definition isArray (d : jsdata) : bool :=
  match d with DArray _ => true | _ => false end.

Inductive TemplateSource : Type :=
  | TString (s : string)          (* a string *)
  | TElement (inner : string)     (* an HTMLElement, with its innerHTML *)
  | TOther.                       (* anything else *)

Inductive ContainerRef : Type :=
  | CSelector (found : bool)  (* a string; does querySelector find it? *)
  | CElement                  (* an HTMLElement *)
  | COther.

(** A render callback returns a markup string or throws.  A callback that
    returns something else than a string makes [html.trim()] raise at
    once, which is covered by the throwing case. *)
Definition RenderCallback : Type := string -> Item -> nat -> exn + string.

Record Settings : Type := {
  container : ContainerRef;       (* read by the class only *)
  data : jsdata;
  template : TemplateSource;
  renderCallback : option RenderCallback;
  validateData : bool;
  batchSize : nat;
  reuseNodes : bool;
}.

(** The closure [() => processBatch(endIndex)] handed to
    [requestAnimationFrame]: it captures the render's [data], [batchSize]
    and [fragment]. *)
Record PendingBatch : Type := {
  pb_data : list Item;
  pb_batchSize : nat;
  pb_fragment : list NodeId;
  pb_start : nat;
}.

(** The page: the element store, the container's element children in
    document order, the queue of animation-frame callbacks, the console
    and the exceptions that reached the host uncaught. *)
Record Host : Type := {
  nodes : gmap NodeId Element;
  next_id : NodeId;
  children : list NodeId;
  raf : list PendingBatch;
  console : list log_entry;
  uncaught : list exn;
}.

(** The fields of a [FastLoop] instance; in the plugin the same names are
    variables of the closure created for the matched element.
    [this_container = false] is the class's [this.container === null],
    when [querySelector] found nothing. *)
Record Instance : Type := {
  settings : Settings;
  this_container : bool;
  templateHtml : string;
  compiledTemplate : option string;
  existingNodes : list NodeId;
}.

Record World : Type := { host : Host; this : Instance }.

Definition set_nodes (m : gmap NodeId Element) (h : Host) : Host :=
  {| nodes := m; next_id := next_id h; children := children h; raf := raf h;
     console := console h; uncaught := uncaught h |}.

Definition set_next_id (n : NodeId) (h : Host) : Host :=
  {| nodes := nodes h; next_id := n; children := children h; raf := raf h;
     console := console h; uncaught := uncaught h |}.

Definition set_children (l : list NodeId) (h : Host) : Host :=
  {| nodes := nodes h; next_id := next_id h; children := l; raf := raf h;
     console := console h; uncaught := uncaught h |}.

Definition set_raf (q : list PendingBatch) (h : Host) : Host :=
  {| nodes := nodes h; next_id := next_id h; children := children h; raf := q;
     console := console h; uncaught := uncaught h |}.

Definition set_console (c : list log_entry) (h : Host) : Host :=
  {| nodes := nodes h; next_id := next_id h; children := children h;
     raf := raf h; console := c; uncaught := uncaught h |}.

Definition set_uncaught (u : list exn) (h : Host) : Host :=
  {| nodes := nodes h; next_id := next_id h; children := children h;
     raf := raf h; console := console h; uncaught := u |}.

Definition set_compiledTemplate (t : option string) (i : Instance) : Instance :=
  {| settings := settings i; this_container := this_container i;
     templateHtml := templateHtml i; compiledTemplate := t;
     existingNodes := existingNodes i |}.

Definition set_existingNodes (l : list NodeId) (i : Instance) : Instance :=
  {| settings := settings i; this_container := this_container i;
     templateHtml := templateHtml i; compiledTemplate := compiledTemplate i;
     existingNodes := l |}.

Definition set_data (d : jsdata) (s : Settings) : Settings :=
  {| container := container s; data := d; template := template s;
     renderCallback := renderCallback s; validateData := validateData s;
     batchSize := batchSize s; reuseNodes := reuseNodes s |}.

Definition set_settings (s : Settings) (i : Instance) : Instance :=
  {| settings := s; this_container := this_container i;
     templateHtml := templateHtml i; compiledTemplate := compiledTemplate i;
     existingNodes := existingNodes i |}.

Definition on_host (f : Host -> Host) (w : World) : World :=
  {| host := f (host w); this := this w |}.

Definition on_this (f : Instance -> Instance) (w : World) : World :=
  {| host := host w; this := f (this w) |}.

(** ** DOM primitives *)

Definition console_error (l : log_entry) (h : Host) : Host :=
  set_console (console h ++ [l]) h.

Definition report_uncaught (e : exn) (h : Host) : Host :=
  set_uncaught (uncaught h ++ [e]) h.

Definition without (id : NodeId) (l : list NodeId) : list NodeId :=
  filter (λ x, x ≠ id) l.

Definition pb_without (id : NodeId) (pb : PendingBatch) : PendingBatch :=
  {| pb_data := pb_data pb; pb_batchSize := pb_batchSize pb;
     pb_fragment := without id (pb_fragment pb); pb_start := pb_start pb |}.

(** A node has one parent at most: taking it out of where it is, be that
    the container or the fragment of a render that waits for its next
    frame. *)
Definition detach (id : NodeId) (h : Host) : Host :=
  set_raf (pb_without id <$> raf h) (set_children (without id (children h)) h).

(** [node.innerHTML = markup]: the node keeps its identity, its shell and
    what callers attached to it. *)
Definition set_innerHTML (markup : string) (el : Element) : Element :=
  {| shell := shell el; innerHTML := markup; expando := expando el |}.

Definition assign_innerHTML (id : NodeId) (markup : string) (h : Host) : Host :=
  set_nodes (alter (set_innerHTML markup) id (nodes h)) h.

(** A new element enters the store under a fresh identity. *)
Definition create (sh inner : string) (h : Host) : NodeId * Host :=
  (next_id h,
   set_next_id (S (next_id h))
     (set_nodes (<[next_id h := {| shell := sh; innerHTML := inner;
                                   expando := ∅ |}]> (nodes h)) h)).

(** [requestAnimationFrame(callback)] *)
Definition requestAnimationFrame (pb : PendingBatch) (h : Host) : Host :=
  set_raf (raf h ++ [pb]) h.

Definition falsy_string (o : option string) : bool :=
  match o with
  | None => true
  | Some s => String.eqb s ""
  end.

(** ** The rendering core, shared by the two surfaces *)

Section Core.

(** [temp.innerHTML = markup; temp.firstElementChild] on a fresh [div]:
    the shell and inner markup of the first element the host's parser
    finds, or [None] when it finds no element. *)
Variable firstElementChild : string -> option (string * string).

Variable sf : surface.

(** Lines 96-109 of the class, 74-87 of the plugin. *)
Definition produce_html (item : Item) (i : nat) (w : World)
  : World * (exn + string) :=
  match renderCallback (settings (this w)) with
  | Some cb => (w, cb (templateHtml (this w)) item i)
  | None =>
      let w1 :=
        if falsy_string (compiledTemplate (this w))
        then on_this (set_compiledTemplate (Some (templateHtml (this w)))) w
        else w in
      match compiledTemplate (this w1) with
      | Some t => (w1, inr (default_substitute sf t item i))
      | None => (w1, inl (TypeError "compiledTemplate.replace"))
      end
  end.

(** [fragment.appendChild(element)]: [null] is no node. *)
Definition appendChild (frag : list NodeId) (element : option NodeId)
    (w : World) : World * (exn + list NodeId) :=
  match element with
  | Some id => (on_host (detach id) w, inr (without id frag ++ [id]))
  | None =>
      (w, inl (TypeError "appendChild: parameter 1 is not of type 'Node'"))
  end.

(** The body of the [for] loop, lines 92-123 of the class and 70-101 of
    the plugin. *)
Definition process_item (i : nat) (item : Item) (frag : list NodeId)
    (w : World) : World * (exn + list NodeId) :=
  match produce_html item i w with
  | (w1, inl e) => (w1, inl e)
  | (w1, inr html) =>
      let reused :=
        if reuseNodes (settings (this w1))
        then existingNodes (this w1) !! i else None in
      match reused with
      | Some element =>
          appendChild frag (Some element)
            (on_host (assign_innerHTML element (trim html)) w1)
      | None =>
          match firstElementChild (trim html) with
          | Some (sh, inner) =>
              let '(element, h) := create sh inner (host w1) in
              appendChild frag (Some element) (on_host (λ _, h) w1)
          | None => appendChild frag None w1
          end
      end
  end.

(** [for (let i = startIndex; i < endIndex; i++)] over the slice of
    [data] it visits. *)
Fixpoint for_items (i : nat) (items : list Item) (frag : list NodeId)
    (w : World) : World * (exn + list NodeId) :=
  match items with
  | [] => (w, inr frag)
  | item :: rest =>
      match process_item i item frag w with
      | (w1, inr frag1) => for_items (S i) rest frag1 w1
      | (w1, inl e) => (w1, inl e)
      end
  end.

(** The [else] branch that ends a render: remove the existing nodes from
    position [n] on, empty the container, append the fragment. *)
Definition commit (n : nat) (frag : list NodeId) (w : World)
  : World * option exn :=
  let removed :=
    if reuseNodes (settings (this w))
    then drop n (existingNodes (this w)) else [] in
  let w1 := on_host (λ h, foldl (λ h id, detach id h) h removed) w in
  let frag1 := filter (λ id, id ∉ removed) frag in
  if this_container (this w1)
  then (on_host (set_children frag1) w1, None)
  else (w1, Some (TypeError "Cannot set properties of null")).

Definition processBatch (items : list Item) (bs : nat)
    (frag : list NodeId) (startIndex : nat) (w : World)
  : World * option exn :=
  let endIndex := Nat.min (startIndex + bs) (length items) in
  match for_items startIndex
          (take (endIndex - startIndex) (drop startIndex items)) frag w with
  | (w1, inl e) => (w1, Some e)
  | (w1, inr frag1) =>
      if Nat.ltb endIndex (length items)
      then (on_host (requestAnimationFrame
                       {| pb_data := items; pb_batchSize := bs;
                          pb_fragment := frag1; pb_start := endIndex |}) w1,
            None)
      else commit (length items) frag1 w1
  end.

(** [existingNodes = Array.from(container.children)] when recycling is
    on. *)
Definition capture (w : World) : World * option exn :=
  if reuseNodes (settings (this w))
  then if this_container (this w)
       then (on_this (set_existingNodes (children (host w))) w, None)
       else (w, Some (TypeError "Cannot read properties of null"))
  else (w, None).

(** [render(data)]: what happens inside [try] and the [catch] around it.
    On a value without [length], [endIndex] is [NaN], no item is visited,
    [NaN < undefined] is false and [slice(undefined)] is the whole
    array. *)
Definition render (d : jsdata) (w : World) : World :=
  if String.eqb (templateHtml (this w)) "" then w
  else
    let bs := batchSize (settings (this w)) in
    let '(w2, r) :=
      match capture w with
      | (w1, Some e) => (w1, Some e)
      | (w1, None) =>
          match d with
          | DArray items => processBatch items bs [] 0 w1
          | DNullish =>
              (w1, Some (TypeError "Cannot read properties (reading 'length')"))
          | DNoLength => commit 0 [] w1
          end
      end in
    match r with
    | Some e => on_host (console_error (RenderError e)) w2
    | None => w2
    end.

(** [updateData(newData)] of the class; the plugin's handler of the
    update event has the same two statements. *)
Definition updateData (newData : jsdata) (w : World) : World :=
  render newData (on_this (λ i, set_settings (set_data newData (settings i)) i) w).

(** The host runs the oldest animation-frame callback.  Nothing catches
    what a callback throws. *)
Definition run_frame (w : World) : option World :=
  match raf (host w) with
  | [] => None
  | pb :: q =>
      match processBatch (pb_data pb) (pb_batchSize pb) (pb_fragment pb)
              (pb_start pb) (on_host (set_raf q) w) with
      | (w1, Some e) => Some (on_host (report_uncaught e) w1)
      | (w1, None) => Some w1
      end
  end.

(** Frames until the queue is empty: how many ran, and the world they
    leave.  [None] when [fuel] frames did not empty the queue. *)
Fixpoint run_frames (fuel : nat) (w : World) : option (nat * World) :=
  match run_frame w with
  | None => Some (0, w)
  | Some w1 =>
      match fuel with
      | 0 => None
      | S fuel' =>
          match run_frames fuel' w1 with
          | Some (n, w2) => Some (S n, w2)
          | None => None
          end
      end
  end.

(** *** The render without its scheduler

    What the specification calls the result of a render: one pass from
    left to right over the items from [start] on, then the swap.  The
    batched [processBatch] above is compared with it. *)
Definition single_pass (items : list Item) (start : nat)
    (frag : list NodeId) (w : World) : World * option exn :=
  match for_items start (drop start items) frag w with
  | (w1, inl e) => (w1, Some e)
  | (w1, inr frag1) => commit (length items) frag1 w1
  end.

Definition render_unbatched (items : list Item) (w : World) : World :=
  if String.eqb (templateHtml (this w)) "" then w
  else
    let '(w2, r) :=
      match capture w with
      | (w1, Some e) => (w1, Some e)
      | (w1, None) => single_pass items 0 [] w1
      end in
    match r with
    | Some e => on_host (console_error (RenderError e)) w2
    | None => w2
    end.

(** The template the default substituter reads: the cached copy once it
    is set. *)
Definition template_in_use (inst : Instance) : string :=
  if falsy_string (compiledTemplate inst) then templateHtml inst
  else default "" (compiledTemplate inst).

(** The markup [produce_html] computes for an item, or what it raises. *)
Definition markup_of (inst : Instance) (item : Item) (i : nat)
  : exn + string :=
  match renderCallback (settings inst) with
  | Some cb => cb (templateHtml inst) item i
  | None => inr (default_substitute sf (template_in_use inst) item i)
  end.

(** How many items the loop completes before it raises or ends. *)
Fixpoint completed (i : nat) (items : list Item) (frag : list NodeId)
    (w : World) : nat :=
  match items with
  | [] => 0
  | item :: rest =>
      match process_item i item frag w with
      | (w1, inr frag1) => S (completed (S i) rest frag1 w1)
      | (_, inl _) => 0
      end
  end.

(** What a render of [items] raises, whatever the batches. *)
Definition raises (items : list Item) (w : World) : option exn :=
  match capture w with
  | (_, Some e) => Some e
  | (w1, None) => snd (single_pass items 0 [] w1)
  end.

End Core.

(** The number of batches a render of [n] items takes: the ceiling of
    [n / bs], and one batch for an empty array. *)
Definition ceil_div (n bs : nat) : nat := (n + bs - 1) / bs.

Definition batches_needed (n bs : nat) : nat :=
  if Nat.eqb n 0 then 1 else ceil_div n bs.

(** Two worlds that differ at most in what was reported: the console and
    the uncaught exceptions. *)
Definition same_page (w1 w2 : World) : Prop :=
  nodes (host w1) = nodes (host w2) /\ next_id (host w1) = next_id (host w2)
  /\ children (host w1) = children (host w2) /\ raf (host w1) = raf (host w2)
  /\ this w1 = this w2.

Definition with_settings (f : Settings -> Settings) (w : World) : World :=
  on_this (λ i, set_settings (f (settings i)) i) w.

(** The container while the loop runs: with recycling the captured nodes
    not yet visited, without it the children it had. *)
Definition remaining (c : list NodeId) (w : World) (i : nat)
  : list NodeId :=
  if reuseNodes (settings (this w)) then drop i c else c.

(** What holds of the page each time the loop reaches position [i], [c]
    being the container's children when the render began. *)
Definition loop_inv (c : list NodeId) (w : World) (i : nat) : Prop :=
  raf (host w) = []
  /\ Forall (λ id, id < next_id (host w)) c
  /\ (reuseNodes (settings (this w)) = true -> existingNodes (this w) = c)
  /\ children (host w) = remaining c w i.

(** ** The two surfaces *)

(** [new FastLoop(options)]: the constructor and [init], lines 10-64.  The
    result is the page after the call with either the exception that left
    the constructor or the instance. *)
Module FastLoop.
Section WithParser.
Variable firstElementChild : string -> option (string * string).

Definition render := render firstElementChild Class.
Definition updateData := updateData firstElementChild Class.
Definition run_frames := run_frames firstElementChild Class.

Definition init (options : Settings) (found : bool) (h : Host)
  : Host * (exn + Instance) :=
  if validateData options && negb (isArray (data options))
  then (h, inl (Error "Data must be an array!"))
  else
    let start t :=
      let w := render (data options)
                 {| host := h;
                    this := {| settings := options; this_container := found;
                               templateHtml := t; compiledTemplate := None;
                               existingNodes := [] |} |} in
      (host w, inr (this w)) in
    match template options with
    | TElement inner => start inner
    | TString s => start s
    | TOther => (h, inl (Error "Invalid template format!"))
    end.

Definition constructor (options : Settings) (h : Host)
  : Host * (exn + Instance) :=
  match container options with
  | CSelector found => init options found h
  | CElement => init options true h
  | COther =>
      (h, inl (Error "Invalid container. Must be a CSS selector or HTMLElement"))
  end.
End WithParser.
End FastLoop.

(** [$(element).loopHtml(options)] for one matched element, lines 22-133
    of the plugin.  On invalid input the plugin logs and returns before it
    creates [render]: no instance results. *)
Module LoopHtml.
Section WithParser.
Variable firstElementChild : string -> option (string * string).

Definition render := render firstElementChild Plugin.
Definition on_updateData := updateData firstElementChild Plugin.
Definition run_frames := run_frames firstElementChild Plugin.

Definition loopHtml (options : Settings) (h : Host)
  : Host * option Instance :=
  if validateData options && negb (isArray (data options))
  then (console_error (Message "Data must be an array!") h, None)
  else
    let start t :=
      let w := render (data options)
                 {| host := h;
                    this := {| settings := options; this_container := true;
                               templateHtml := t; compiledTemplate := None;
                               existingNodes := [] |} |} in
      (host w, Some (this w)) in
    match template options with
    | TElement inner => start inner
    | TString s => start s
    | TOther => (console_error (Message "Invalid template format!") h, None)
    end.
End WithParser.
End LoopHtml.

(** ** A page and a parser to run the model on *)

Fixpoint after_char (c : ascii) (s : string) : option string :=
  match s with
  | String a s' => if Ascii.eqb a c then Some s' else after_char c s'
  | EmptyString => None
  end.

Fixpoint strip_suffix (suffix s : string) : option string :=
  if String.eqb s suffix then Some EmptyString
  else match s with
       | String a s' =>
           match strip_suffix suffix s' with
           | Some t => Some (String a t)
           | None => None
           end
       | EmptyString => None
       end.

(** A stand-in for the host's parser, exact on the markup used below:
    markup that opens with a start tag [<name ...>] gives an element with
    that tag name, whose inner markup is what follows the tag up to its
    closing [</name>]; markup that does not open with a tag name (plain
    text) gives no element. *)
Definition sample_parser (markup : string) : option (string * string) :=
  match strip_prefix "<" markup with
  | Some r =>
      match take_word r with
      | (String c name, r1) =>
          match after_char ">" r1 with
          | Some body =>
              match strip_suffix ("</" +:+ String c name +:+ ">") body with
              | Some inner => Some (String c name, inner)
              | None => Some (String c name, body)
              end
          | None => None
          end
      | _ => None
      end
  | None => None
  end.

Definition default_settings : Settings :=
  {| container := CElement; data := DArray []; template := TString "";
     renderCallback := None; validateData := true; batchSize := 1000;
     reuseNodes := true |}.

Definition with_template (t : TemplateSource) (s : Settings) : Settings :=
  {| container := container s; data := data s; template := t;
     renderCallback := renderCallback s; validateData := validateData s;
     batchSize := batchSize s; reuseNodes := reuseNodes s |}.

Definition with_batchSize (n : nat) (s : Settings) : Settings :=
  {| container := container s; data := data s; template := template s;
     renderCallback := renderCallback s; validateData := validateData s;
     batchSize := n; reuseNodes := reuseNodes s |}.

Definition with_reuseNodes (b : bool) (s : Settings) : Settings :=
  {| container := container s; data := data s; template := template s;
     renderCallback := renderCallback s; validateData := validateData s;
     batchSize := batchSize s; reuseNodes := b |}.

Definition with_renderCallback (cb : option RenderCallback) (s : Settings)
  : Settings :=
  {| container := container s; data := data s; template := template s;
     renderCallback := cb; validateData := validateData s;
     batchSize := batchSize s; reuseNodes := reuseNodes s |}.

(** An empty container on an otherwise idle page. *)
Definition empty_page : Host :=
  {| nodes := ∅; next_id := 0; children := []; raf := [];
     console := []; uncaught := [] |}.

Definition named (s : string) : Item := {[ "name" := VStr s ]}.

(** The values [||] replaces by the empty string and [??] keeps. *)
Definition or_drops (v : value) : bool :=
  match v with
  | VBool false | VNaN => true
  | VNum z => Z.eqb z 0
  | _ => false
  end.

(** The check both surfaces make before the first render, with the
    message each of them reports. *)
Definition rejected (options : Settings) : option string :=
  if validateData options && negb (isArray (data options))
  then Some "Data must be an array!"
  else match template options with
       | TOther => Some "Invalid template format!"
       | _ => None
       end.

Definition ab_settings : Settings :=
  with_template (TString "<div>{{name}}</div>")
    (set_data (DArray [named "A"; named "B"; named "C"]) default_settings).

(** ** Items on which the two surfaces agree *)

(** An item none of whose values is [false], [0] or [NaN]. *)
Definition plain_item (item : Item) : Prop :=
  forall key v, item !! key = Some v -> or_drops v = false.

(** Every render waiting for a frame renders such items only. *)
Definition plain_queue (w : World) : Prop :=
  Forall (λ pb, Forall plain_item (pb_data pb)) (raf (host w)).

(** ** The event registry of the class *)

(** Handlers are function objects, told apart by identity. *)
Abbreviation HandlerId := nat.

(** [this.eventListeners]: a [Map] from event names to [Set]s of
    handlers.  A [Set] keeps its members in insertion order and holds
    each once: a list without duplicates. *)
Abbreviation Listeners := (gmap string (list HandlerId)).

(** [Set.prototype.add] *)
Definition set_add (cb : HandlerId) (l : list HandlerId) : list HandlerId :=
  if decide (cb ∈ l) then l else l ++ [cb].

(** [Set.prototype.delete] *)
Definition set_delete (cb : HandlerId) (l : list HandlerId) : list HandlerId :=
  filter (λ x, x ≠ cb) l.

(** [on(eventName, callback)], lines 161-166 *)
Definition on (eventName : string) (callback : HandlerId) (m : Listeners)
  : Listeners :=
  let m1 := match m !! eventName with
            | Some _ => m
            | None => <[eventName := []]> m
            end in
  alter (set_add callback) eventName m1.

(** [off(eventName, callback)], lines 173-177 *)
Definition off (eventName : string) (callback : HandlerId) (m : Listeners)
  : Listeners :=
  match m !! eventName with
  | Some _ => alter (set_delete callback) eventName m
  | None => m
  end.

(** The handlers registered for an event, in the order [emit] calls
    them. *)
Definition listeners_of (m : Listeners) (eventName : string)
  : list HandlerId :=
  default [] (m !! eventName).

Section Emit.
(** What handlers act on, what they are passed, and what calling one
    does: a new state, and the exception it throws if it throws.  A
    handler that changes the registry while [emit] runs is outside this
    model. *)
Variables (State Payload : Type).
Variable call : HandlerId -> Payload -> State -> State * option exn.

(** [set.forEach(callback => callback(data))]: an exception leaves the
    loop. *)
Fixpoint invoke_all (l : list HandlerId) (d : Payload) (s : State)
  : State * option exn :=
  match l with
  | [] => (s, None)
  | cb :: rest =>
      match call cb d s with
      | (s1, None) => invoke_all rest d s1
      | (s1, Some e) => (s1, Some e)
      end
  end.

(** [emit(eventName, data)], lines 184-188 *)
Definition emit (eventName : string) (d : Payload) (m : Listeners)
    (s : State) : State * option exn :=
  match m !! eventName with
  | Some l => invoke_all l d s
  | None => (s, None)
  end.

End Emit.

(** ** What a render that completes puts in the container *)

(** The captured nodes a render may recycle: the container's children
    [c] when recycling is on, none when it is off. *)
Definition recycled (c : list NodeId) (w : World) : list NodeId :=
  if reuseNodes (settings (this w)) then c else [].

(** The nodes a render has put in its fragment when it reaches position
    [i]: the recycled nodes of the positions before [i], then the new
    elements, which take the identities from [n0] on. *)
Definition filled (slots : list NodeId) (n0 i : nat) : list NodeId :=
  take i slots ++ seq n0 (i - length slots).

(** An item the loop completes: its markup is produced without an
    exception, and either a captured node is recycled at its position or
    the markup parses to an element. *)
Definition renders_at (parse : string -> option (string * string))
    (sf : surface) (slots : list NodeId) (inst : Instance) (item : Item)
    (j : nat) : Prop :=
  exists html, markup_of sf inst item j = inr html
               /\ (j < length slots \/ is_Some (parse (trim html))).

(** ** Shapes of template text *)

(** Does [s] contain the two opening braces somewhere? *)
Fixpoint contains_open (s : string) : bool :=
  match s with
  | String c s' =>
      match strip_prefix "{{" s with
      | Some _ => true
      | None => contains_open s'
      end
  | EmptyString => false
  end.

(** Text without a brace of either kind. *)
Fixpoint no_brace (s : string) : bool :=
  match s with
  | String c s' =>
      negb (Ascii.eqb c "{") && negb (Ascii.eqb c "}") && no_brace s'
  | EmptyString => true
  end.

(** ** Pages and instances for the examples *)

(** An instance as the constructor leaves it before its first render. *)
Definition fresh_instance (options : Settings) (t : string) : Instance :=
  {| settings := options; this_container := true; templateHtml := t;
     compiledTemplate := None; existingNodes := [] |}.

Definition abc : list Item := [named "A"; named "B"; named "C"].

Definition sample_world : World :=
  {| host := empty_page;
     this := fresh_instance ab_settings "<div>{{name}}</div>" |}.

Definition plain (inner : string) : Element :=
  {| shell := "div"; innerHTML := inner; expando := ∅ |}.

Definition two_node_page : Host :=
  {| nodes := <[0 := plain "one"]> (<[1 := plain "two"]> ∅); next_id := 2;
     children := [0; 1]; raf := []; console := []; uncaught := [] |}.

(** A callback that throws at position [k]. *)
Definition throwing_at (k : nat) : RenderCallback :=
  λ _ _ i, if Nat.eqb i k then inl (Error "boom") else inr "<p>ok</p>".

Definition throwing_world : World :=
  {| host := two_node_page;
     this := fresh_instance
               (with_renderCallback (Some (throwing_at 1)) ab_settings)
               "<div>{{name}}</div>" |}.

Definition text_then_element : Settings :=
  with_template (TString "{{name}}")
    (set_data (DArray [named "text"; named "<p>ok</p>"]) default_settings).

Definition blank_settings : Settings :=
  set_data (DArray abc) default_settings.

Definition marked : Element :=
  {| shell := "div"; innerHTML := "one";
     expando := {[ "marker" := VStr "mine" ]} |}.

(** Two elements in the container, the first of them carrying a property
    its caller attached. *)
Definition marked_world : World :=
  {| host := {| nodes := <[0 := marked]> (<[1 := plain "two"]> ∅);
                next_id := 2; children := [0; 1]; raf := [];
                console := []; uncaught := [] |};
     this := fresh_instance ab_settings "<div>{{name}}</div>" |}.

(** * Facts about the model *)

(** ** Strings *)

Lemma app_empty_l (s : string) : "" +:+ s = s.
Proof. reflexivity. Qed.

Lemma app_empty_r (s : string) : s +:+ "" = s.
Proof.
  induction s as [|c s IH]; [reflexivity|]. rewrite app_String. now rewrite IH.
Qed.

Lemma app_string_assoc (s t u : string) : (s +:+ t) +:+ u = s +:+ t +:+ u.
Proof.
  induction s as [|c s IH]; [reflexivity|].
  rewrite !app_String. now rewrite IH.
Qed.

Create Rewrite HintDb strapp.
#[local] Hint Rewrite app_String app_empty_l : strapp.

Lemma take_word_spec s w r :
  take_word s = (w, r) -> all_word w = true /\ stops_word r = true.
Proof.
  revert w r. induction s as [|c s IH]; intros w r; simpl.
  - intros [= <- <-]. split; reflexivity.
  - destruct (is_word_char c) eqn:Hc.
    + destruct (take_word s) as [w' r'] eqn:E. intros [= <- <-].
      destruct (IH _ _ eq_refl) as [Hw Hr]. simpl. rewrite Hc, Hw. now split.
    + intros [= <- <-]. simpl. rewrite Hc. split; reflexivity.
Qed.

Lemma take_word_complete w r :
  all_word w = true -> stops_word r = true -> take_word (w +:+ r) = (w, r).
Proof.
  intros Hw Hr. induction w as [|c w IH].
  - rewrite app_empty_l. destruct r as [|c r]; [reflexivity|].
    simpl in *. destruct (is_word_char c); [discriminate|reflexivity].
  - simpl in Hw. apply andb_prop in Hw as [Hc Hw].
    rewrite app_String. simpl. rewrite Hc, (IH Hw). reflexivity.
Qed.

(** The pattern matches at the head of [s] exactly when [s] opens with a
    placeholder. *)
Lemma match_placeholder_iff s key rest :
  match_placeholder s = Some (key, rest) <->
  key <> "" /\ all_word key = true /\ s = "{{" +:+ key +:+ "}}" +:+ rest.
Proof.
  split.
  - intros H. pose proof (match_placeholder_Some _ _ _ H) as [-> Hne].
    split; [assumption|]. split; [|reflexivity].
    unfold match_placeholder in H.
    destruct (strip_prefix "{{" _) as [r|] eqn:E1; [|discriminate].
    destruct (take_word r) as [w r'] eqn:E2.
    apply take_word_spec in E2 as [Hw _].
    destruct w; [discriminate|].
    destruct (strip_prefix "}}" r'); [|discriminate].
    injection H as <- _. exact Hw.
  - intros (Hne & Hw & ->). unfold match_placeholder.
    replace (strip_prefix "{{" ("{{" +:+ key +:+ "}}" +:+ rest))
      with (Some (key +:+ "}}" +:+ rest))
      by (symmetry; apply strip_prefix_Some; reflexivity).
    rewrite (take_word_complete key ("}}" +:+ rest) Hw eq_refl).
    destruct key; [contradiction|]. reflexivity.
Qed.

(** A match at the head of [s] is not disturbed by what follows [s]. *)
Lemma match_placeholder_app s key rest x :
  match_placeholder s = Some (key, rest) ->
  match_placeholder (s +:+ x) = Some (key, rest +:+ x).
Proof.
  rewrite !match_placeholder_iff. intros (Hne & Hw & ->).
  repeat split; try assumption.
  now rewrite !app_string_assoc.
Qed.

(** Where the pattern fails on a non-empty [s], it still fails when an
    opening [{{] follows [s]: the run of word characters cannot cross a
    brace. *)
Lemma match_placeholder_None_app s x :
  s <> "" -> match_placeholder s = None ->
  match_placeholder (s +:+ "{{" +:+ x) = None.
Proof.
  intros Hs Hnone.
  destruct (match_placeholder (s +:+ "{{" +:+ x)) as [[key rest]|] eqn:E;
    [exfalso|reflexivity].
  apply match_placeholder_iff in E as (Hne & Hw & E).
  destruct s as [|a [|b r]]; [contradiction| |].
  - (* s is one character *)
    autorewrite with strapp in E.
    destruct key as [|c key]; [contradiction|].
    injection E as _ Hc E. subst c. discriminate.
  - autorewrite with strapp in E. injection E as -> -> E.
    assert (Hr : match_placeholder ("{{" +:+ r) = None) by exact Hnone.
    unfold match_placeholder in Hr.
    replace (strip_prefix "{{" ("{{" +:+ r)) with (Some r) in Hr
      by (symmetry; apply strip_prefix_Some; reflexivity).
    destruct (take_word r) as [w r'] eqn:Ew.
    pose proof (take_word_app _ _ _ Ew) as ->.
    pose proof (take_word_spec _ _ _ Ew) as [Hww Hstop].
    (* the two runs of word characters agree *)
    assert (Hkey : take_word (key +:+ String "}" (String "}" rest))
                   = (key, String "}" (String "}" rest)))
      by (apply take_word_complete; [assumption|reflexivity]).
    rewrite <- E in Hkey. rewrite app_string_assoc in Hkey.
    destruct r' as [|c r'].
    + rewrite app_empty_l in Hkey.
      rewrite (take_word_complete w (String "{" (String "{" x)) Hww eq_refl)
        in Hkey.
      discriminate.
    + rewrite (take_word_complete w _ Hww) in Hkey
        by (rewrite app_String; exact Hstop).
      injection Hkey as -> -> Hrest.
      destruct key as [|k key]; [contradiction|].
      destruct r' as [|d r']; autorewrite with strapp in Hrest;
        [discriminate|].
      injection Hrest as -> _. simpl in Hr. discriminate.
Qed.

(** The defining equation of [replace_placeholders], by cases on the
    attempt at the head. *)
Lemma replace_placeholders_eq f s :
  replace_placeholders f s =
  match match_placeholder s with
  | Some (key, rest) => f key +:+ replace_placeholders f rest
  | None =>
      match s with
      | EmptyString => EmptyString
      | String c s' => String c (replace_placeholders f s')
      end
  end.
Proof.
  funelim (replace_placeholders f s);
    try match goal with
        | E : match_placeholder _ = _ |- _ => rewrite E
        end.
  - destruct m. reflexivity.
  - reflexivity.
  - reflexivity.
Qed.

(** Each placeholder is replaced on its own: the text before it and the
    text after it are processed as if they stood alone, and the
    replacement is emitted as it is, never scanned again. *)
Lemma replace_placeholders_app f pre key post :
  key <> "" -> all_word key = true ->
  replace_placeholders f (pre +:+ "{{" +:+ key +:+ "}}" +:+ post) =
  replace_placeholders f pre +:+ f key +:+ replace_placeholders f post.
Proof.
  intros Hne Hw.
  remember (String.length pre) as n eqn:Hn. revert pre Hn.
  induction n as [n IH] using lt_wf_ind. intros pre ->.
  rewrite (replace_placeholders_eq f pre).
  destruct (match_placeholder pre) as [[k rest]|] eqn:E.
  - rewrite replace_placeholders_eq.
    rewrite (match_placeholder_app _ _ _ _ E).
    rewrite (IH (String.length rest)
               (match_placeholder_shorter _ _ _ E) rest eq_refl).
    now rewrite app_string_assoc.
  - destruct pre as [|c pre].
    + rewrite !app_empty_l. rewrite replace_placeholders_eq.
      replace (match_placeholder ("{{" +:+ key +:+ "}}" +:+ post))
        with (Some (key, post))
        by (symmetry; apply match_placeholder_iff; auto).
      reflexivity.
    + rewrite replace_placeholders_eq.
      rewrite (match_placeholder_None_app (String c pre)) by (auto; discriminate).
      rewrite !app_String. f_equal.
      apply (IH (String.length pre)); [simpl; lia|reflexivity].
Qed.

Lemma replace_placeholders_ext f g s :
  (forall key, f key = g key) ->
  replace_placeholders f s = replace_placeholders g s.
Proof.
  intros Hfg. remember (String.length s) as n eqn:Hn. revert s Hn.
  induction n as [n IH] using lt_wf_ind. intros s ->.
  rewrite (replace_placeholders_eq f s), (replace_placeholders_eq g s).
  destruct (match_placeholder s) as [[k rest]|] eqn:E.
  - rewrite Hfg. f_equal.
    apply (IH (String.length rest)); [|reflexivity].
    eapply match_placeholder_shorter; eassumption.
  - destruct s as [|c s]; [reflexivity|]. f_equal.
    apply (IH (String.length s)); [simpl; lia|reflexivity].
Qed.

(** ** Counting batches *)

Lemma ceil_div_small a b : 1 <= a -> a <= b -> ceil_div a b = 1.
Proof.
  intros Ha Hb. unfold ceil_div.
  symmetry. apply (Nat.div_unique _ _ _ (a - 1)); lia.
Qed.

Lemma ceil_div_step a b : 1 <= b -> b < a -> ceil_div a b = S (ceil_div (a - b) b).
Proof.
  intros Hb Ha. unfold ceil_div.
  replace (a + b - 1) with ((a - b + b - 1) + 1 * b) by lia.
  rewrite Nat.div_add by lia. lia.
Qed.

(** [ceil_div a b] is the least number of batches of [b] items that hold
    [a] items. *)
Lemma ceil_div_spec a b :
  1 <= a -> 1 <= b -> a <= ceil_div a b * b /\ (ceil_div a b - 1) * b < a.
Proof.
  intros Ha Hb. unfold ceil_div.
  pose proof (Nat.div_mod_eq (a + b - 1) b) as Hd.
  pose proof (Nat.mod_upper_bound (a + b - 1) b) as Hm.
  set (q := (a + b - 1) / b) in *. set (r := (a + b - 1) mod b) in *.
  assert (1 <= q) by (destruct q; [simpl in Hd; lia|lia]).
  split; nia.
Qed.

Lemma ceil_div_pos a b : 1 <= a -> 1 <= b -> 1 <= ceil_div a b.
Proof.
  intros Ha Hb. unfold ceil_div.
  apply (Nat.div_le_lower_bound (a + b - 1) b 1); lia.
Qed.

(** ** The loop over a batch *)

Ltac unfold_item :=
  unfold process_item, produce_html, appendChild, create, on_host, on_this,
    detach, assign_innerHTML, set_nodes, set_next_id, set_children, set_raf,
    set_compiledTemplate in *.

Section CoreFacts.
Variable firstElementChild : string -> option (string * string).
Variable sf : surface.

Local Abbreviation process_item := (process_item firstElementChild sf).
Local Abbreviation for_items := (for_items firstElementChild sf).
Local Abbreviation processBatch := (processBatch firstElementChild sf).
Local Abbreviation render := (render firstElementChild sf).
Local Abbreviation run_frame := (run_frame firstElementChild sf).
Local Abbreviation run_frames := (run_frames firstElementChild sf).

(** One item leaves the frame queue, the console and the uncaught
    exceptions as they were when no render is waiting, and never touches
    the settings, the template or the captured nodes. *)
Lemma process_item_frame i item frag w w1 r :
  process_item i item frag w = (w1, r) ->
  raf (host w) = [] ->
  raf (host w1) = [] /\ console (host w1) = console (host w)
  /\ uncaught (host w1) = uncaught (host w)
  /\ settings (this w1) = settings (this w)
  /\ templateHtml (this w1) = templateHtml (this w)
  /\ this_container (this w1) = this_container (this w)
  /\ existingNodes (this w1) = existingNodes (this w).
Proof.
  intros H Hraf. unfold_item.
  repeat case_match; simplify_eq; simpl in *; rewrite ?Hraf; auto 10.
Qed.

Lemma for_items_frame items : forall i frag w w1 r,
  for_items i items frag w = (w1, r) ->
  raf (host w) = [] ->
  raf (host w1) = [] /\ console (host w1) = console (host w)
  /\ uncaught (host w1) = uncaught (host w)
  /\ settings (this w1) = settings (this w)
  /\ templateHtml (this w1) = templateHtml (this w)
  /\ this_container (this w1) = this_container (this w)
  /\ existingNodes (this w1) = existingNodes (this w).
Proof.
  induction items as [|item rest IH]; intros i frag w w1 r; simpl.
  - intros [= <- <-] Hraf. auto 10.
  - destruct (process_item i item frag w) as [w2 [e|frag2]] eqn:E;
      intros H Hraf;
      destruct (process_item_frame _ _ _ _ _ _ E Hraf)
        as (R & C & U & S & T & K & X).
    + injection H as <- <-. auto 10.
    + destruct (IH _ _ _ _ _ H R) as (R' & C' & U' & S' & T' & K' & X').
      repeat split; congruence.
Qed.

(** The loop over a list of items is the loop over its first part
    followed, if nothing was raised, by the loop over the rest. *)
Lemma for_items_app l1 : forall l2 i frag w,
  for_items i (l1 ++ l2) frag w =
  match for_items i l1 frag w with
  | (w1, inr frag1) => for_items (i + length l1) l2 frag1 w1
  | (w1, inl e) => (w1, inl e)
  end.
Proof.
  induction l1 as [|item l1 IH]; intros l2 i frag w; simpl.
  - now rewrite Nat.add_0_r.
  - destruct (process_item i item frag w) as [w1 [e|frag1]]; [reflexivity|].
    rewrite IH. now rewrite Nat.add_succ_r.
Qed.

Lemma same_page_refl w : same_page w w.
Proof. unfold same_page. auto. Qed.

Lemma same_page_console w l : same_page (on_host (console_error l) w) w.
Proof. unfold same_page. destruct w as [[] ?]. simpl. auto. Qed.

Lemma same_page_uncaught w e : same_page (on_host (report_uncaught e) w) w.
Proof. unfold same_page. destruct w as [[] ?]. simpl. auto. Qed.

Lemma same_page_trans w1 w2 w3 :
  same_page w1 w2 -> same_page w2 w3 -> same_page w1 w3.
Proof. unfold same_page. intuition congruence. Qed.

(** Popping the callback that was just queued on an idle page gives the
    page back. *)
Lemma pop_requested pb w :
  raf (host w) = [] ->
  raf (host (on_host (requestAnimationFrame pb) w)) = [pb] /\
  on_host (set_raf []) (on_host (requestAnimationFrame pb) w) = w.
Proof.
  destruct w as [[] ?]. simpl. intros ->. split; reflexivity.
Qed.

Lemma commit_frame n frag w w1 r :
  commit n frag w = (w1, r) ->
  raf (host w) = [] ->
  raf (host w1) = [] /\ console (host w1) = console (host w)
  /\ uncaught (host w1) = uncaught (host w) /\ this w1 = this w.
Proof.
  unfold commit. intros H Hraf.
  set (removed := if reuseNodes (settings (this w))
                  then drop n (existingNodes (this w)) else []) in *.
  assert (Hfold : forall l h, raf h = [] ->
            raf (foldl (λ h id, detach id h) h l) = []
            /\ console (foldl (λ h id, detach id h) h l) = console h
            /\ uncaught (foldl (λ h id, detach id h) h l) = uncaught h).
  { induction l as [|x l IH]; intros h Hh; simpl; [auto|].
    destruct (IH (detach x h)) as (A & B & C).
    - unfold detach. simpl. now rewrite Hh.
    - rewrite A, B, C. unfold detach. simpl. auto. }
  destruct (Hfold removed (host w) Hraf) as (A & B & C).
  destruct w as [h t]. simpl in *.
  destruct (this_container t); injection H as <- <-; simpl; auto.
Qed.

(** One batch, on an idle page and with a batch size of one or more:
    either it ends the render, with the result of the single pass, or it
    leaves the rest of the single pass to the next frame. *)
Lemma batch_step items bs frag start w :
  1 <= bs -> start <= length items -> raf (host w) = [] ->
  (processBatch items bs frag start w = single_pass firstElementChild sf items start frag w
   /\ (length items <= start + bs
       \/ snd (single_pass firstElementChild sf items start frag w) <> None))
  \/ (exists w1 frag1,
        start + bs < length items /\ raf (host w1) = []
        /\ processBatch items bs frag start w =
           (on_host (requestAnimationFrame
                       {| pb_data := items; pb_batchSize := bs;
                          pb_fragment := frag1; pb_start := start + bs |}) w1,
            None)
        /\ single_pass firstElementChild sf items start frag w =
           single_pass firstElementChild sf items (start + bs) frag1 w1).
Proof.
  intros Hbs Hstart Hraf. unfold processBatch, single_pass.
  set (e := Nat.min (start + bs) (length items)).
  assert (Hsplit : drop start items
                   = take (e - start) (drop start items) ++ drop e items).
  { rewrite <- (take_drop (e - start) (drop start items)) at 1.
    rewrite drop_drop. do 2 f_equal. subst e. lia. }
  assert (Hlen : start + length (take (e - start) (drop start items)) = e).
  { rewrite length_take, length_drop. subst e. lia. }
  assert (Hsp : for_items start (drop start items) frag w =
                match for_items start (take (e - start) (drop start items))
                        frag w with
                | (w1, inr frag1) => for_items e (drop e items) frag1 w1
                | (w1, inl err) => (w1, inl err)
                end).
  { rewrite Hsplit at 1. rewrite for_items_app, Hlen. reflexivity. }
  rewrite Hsp. clear Hsp Hsplit.
  destruct (for_items start (take (e - start) (drop start items)) frag w)
    as [w1 [err|frag1]] eqn:E.
  - left. split; [reflexivity|]. right. simpl. discriminate.
  - destruct (for_items_frame _ _ _ _ _ _ E Hraf) as (R & _).
    destruct (Nat.ltb_spec e (length items)) as [Hlt|Hge].
    + right. exists w1, frag1.
      assert (He : e = start + bs) by (subst e; lia).
      rewrite He in *. repeat split; auto.
    + left. assert (He : e = length items) by (subst e; lia).
      rewrite He. rewrite drop_all. simpl. split; [reflexivity|].
      left. subst e. lia.
Qed.

Lemma run_frames_S k w :
  run_frames (S k) w =
  match run_frame w with
  | None => Some (0, w)
  | Some w1 =>
      match run_frames k w1 with
      | Some (n, w2) => Some (S n, w2)
      | None => None
      end
  end.
Proof. reflexivity. Qed.

Lemma run_frames_idle k w : raf (host w) = [] -> run_frames k w = Some (0, w).
Proof.
  intros H. destruct k; simpl; unfold run_frame; rewrite H; reflexivity.
Qed.

Lemma single_pass_idle items start frag w wf r :
  single_pass firstElementChild sf items start frag w = (wf, r) ->
  raf (host w) = [] -> raf (host wf) = [].
Proof.
  unfold single_pass. intros Esp Hraf.
  destruct (for_items start (drop start items) frag w)
    as [w2 [e|f2]] eqn:E2;
    destruct (for_items_frame _ _ _ _ _ _ E2 Hraf) as (R2 & _).
  - injection Esp as <- <-. exact R2.
  - apply (commit_frame _ _ _ _ _ Esp R2).
Qed.

(** The frames that follow a scheduled batch: they end, their number is
    the ceiling of what is left over the batch size when nothing is
    raised, and the page they leave is the one of the single pass. *)
Lemma frames_finish items bs k : forall start frag w,
  1 <= bs -> start < length items -> raf (host w) = [] ->
  ceil_div (length items - start) bs <= k ->
  exists n w',
    run_frames k (on_host (requestAnimationFrame
                    {| pb_data := items; pb_batchSize := bs;
                       pb_fragment := frag; pb_start := start |}) w)
    = Some (n, w')
    /\ 1 <= n <= ceil_div (length items - start) bs
    /\ raf (host w') = []
    /\ match single_pass firstElementChild sf items start frag w with
       | (wf, None) => w' = wf /\ n = ceil_div (length items - start) bs
       | (wf, Some e) => w' = on_host (report_uncaught e) wf
       end.
Proof.
  induction k as [|k IH]; intros start frag w Hbs Hstart Hraf Hk.
  { pose proof (ceil_div_pos (length items - start) bs). lia. }
  destruct (pop_requested
              {| pb_data := items; pb_batchSize := bs;
                 pb_fragment := frag; pb_start := start |} w Hraf)
    as [Hq Hpop].
  rewrite run_frames_S. unfold run_frame at 1. rewrite Hq.
  cbn [pb_data pb_batchSize pb_fragment pb_start]. rewrite Hpop.
  destruct (batch_step items bs frag start w Hbs (Nat.lt_le_incl _ _ Hstart) Hraf)
    as [[Heq Hend]|(w1 & frag1 & Hlt & R1 & Heq & Hsp)].
  - rewrite Heq.
    destruct (single_pass firstElementChild sf items start frag w) as [wf r] eqn:Esp.
    pose proof (single_pass_idle _ _ _ _ _ _ Esp Hraf) as Hidle.
    destruct r as [e|].
    + exists 1, (on_host (report_uncaught e) wf).
      assert (Hidle' : raf (host (on_host (report_uncaught e) wf)) = [])
        by (destruct wf as [[] ?]; exact Hidle).
      rewrite (run_frames_idle _ _ Hidle').
      split; [reflexivity|].
      split; [pose proof (ceil_div_pos (length items - start) bs); lia|].
      auto.
    + destruct Hend as [Hend|Hend]; [|simpl in Hend; congruence].
      exists 1, wf.
      assert (Hone : ceil_div (length items - start) bs = 1)
        by (apply ceil_div_small; lia).
      rewrite (run_frames_idle _ _ Hidle), Hone. auto.
  - rewrite Heq, Hsp.
    assert (Hstep : ceil_div (length items - start) bs
                    = S (ceil_div (length items - (start + bs)) bs)).
    { rewrite (ceil_div_step (length items - start) bs) by lia.
      do 2 f_equal. lia. }
    destruct (IH (start + bs) frag1 w1 Hbs Hlt R1) as (n & w' & Hrun & Hn & R' & Hres);
      [lia|].
    exists (S n), w'. rewrite Hrun. split; [reflexivity|].
    split; [lia|]. split; [exact R'|].
    destruct (single_pass firstElementChild sf items (start + bs) frag1 w1)
      as [wf [e|]]; [exact Hres|].
    destruct Hres as [-> ->]. split; [reflexivity|lia].
Qed.

Lemma same_page_sym w1 w2 : same_page w1 w2 -> same_page w2 w1.
Proof. unfold same_page. intuition congruence. Qed.

Lemma capture_frame w w1 r :
  capture w = (w1, r) ->
  host w1 = host w /\ settings (this w1) = settings (this w).
Proof.
  unfold capture. destruct w as [h t]. simpl.
  destruct (reuseNodes (settings t)); [destruct (this_container t)|];
    intros [= <- <-]; auto.
Qed.

Lemma batches_needed_pos n bs : 1 <= bs -> 1 <= batches_needed n bs.
Proof.
  intros Hbs. unfold batches_needed.
  destruct (Nat.eqb_spec n 0); [lia|]. apply ceil_div_pos; lia.
Qed.

(** A render and the frames it schedules, on an idle page and with a
    batch size of one or more. *)
Lemma render_run items w k :
  1 <= batchSize (settings (this w)) -> raf (host w) = [] ->
  batches_needed (length items) (batchSize (settings (this w))) <= S k ->
  exists n w',
    run_frames k (render (DArray items) w) = Some (n, w')
    /\ raf (host w') = []
    /\ same_page w' (render_unbatched firstElementChild sf items w)
    /\ n < batches_needed (length items) (batchSize (settings (this w)))
    /\ (templateHtml (this w) <> "" ->
        raises firstElementChild sf items w = None ->
        S n = batches_needed (length items) (batchSize (settings (this w)))
        /\ w' = render_unbatched firstElementChild sf items w).
Proof.
  intros Hbs Hraf Hk.
  pose proof (batches_needed_pos (length items) _ Hbs) as Hpos.
  unfold render, render_unbatched, raises.
  destruct (String.eqb_spec (templateHtml (this w)) "") as [Ht|Ht].
  { exists 0, w. rewrite (run_frames_idle _ _ Hraf).
    repeat split; auto using same_page_refl; try lia. all: contradiction. }
  destruct (capture w) as [w1 [e|]] eqn:Ec;
    destruct (capture_frame _ _ _ Ec) as [Hh Hs].
  { assert (Hidle : raf (host (on_host (console_error (RenderError e)) w1)) = []).
    { destruct w1 as [[] ?]. simpl in *. now rewrite <- Hh in Hraf. }
    exists 0, (on_host (console_error (RenderError e)) w1).
    rewrite (run_frames_idle _ _ Hidle).
    repeat split; auto using same_page_refl; try lia. all: discriminate. }
  assert (Hraf1 : raf (host w1) = []) by now rewrite Hh.
  set (bs := batchSize (settings (this w))) in *.
  destruct (batch_step items bs [] 0 w1 Hbs (Nat.le_0_l _) Hraf1)
    as [[Heq Hend]|(w2 & frag2 & Hlt & R2 & Heq & Hsp)].
  - rewrite Heq.
    destruct (single_pass firstElementChild sf items 0 [] w1) as [wf r] eqn:Esp.
    pose proof (single_pass_idle _ _ _ _ _ _ Esp Hraf1) as Hidle.
    destruct r as [e|].
    + assert (Hidle' : raf (host (on_host (console_error (RenderError e)) wf)) = [])
        by (destruct wf as [[] ?]; exact Hidle).
      exists 0, (on_host (console_error (RenderError e)) wf).
      rewrite (run_frames_idle _ _ Hidle').
      repeat split; auto using same_page_refl; try lia. all: discriminate.
    + exists 0, wf. rewrite (run_frames_idle _ _ Hidle).
      destruct Hend as [Hend|Hend]; [|simpl in Hend; congruence].
      assert (Hone : batches_needed (length items) bs = 1).
      { unfold batches_needed. destruct (Nat.eqb_spec (length items) 0);
          [reflexivity|]. apply ceil_div_small; lia. }
      repeat split; auto using same_page_refl; lia.
  - rewrite Heq, Hsp. simpl in Hlt.
    assert (Hnb : batches_needed (length items) bs
                  = S (ceil_div (length items - bs) bs)).
    { unfold batches_needed. destruct (Nat.eqb_spec (length items) 0); [lia|].
      apply ceil_div_step; lia. }
    destruct (frames_finish items bs k (0 + bs) frag2 w2 Hbs Hlt R2)
      as (n & w' & Hrun & Hn & R' & Hres); [simpl; lia|].
    simpl in Hrun, Hn, Hres.
    exists n, w'. simpl. rewrite Hrun. split; [reflexivity|].
    split; [exact R'|].
    destruct (single_pass firstElementChild sf items bs frag2 w2)
      as [wf [e|]].
    + subst w'. split.
      { eapply same_page_trans; [apply same_page_uncaught|].
        apply same_page_sym, same_page_console. }
      split; [lia|]. intros _ Hr. simpl in Hr. discriminate.
    + destruct Hres as [-> ->]. repeat split; auto using same_page_refl; lia.
Qed.

(** *** What one item does to the page *)

Lemma without_fresh id (l : list NodeId) : id ∉ l -> without id l = l.
Proof.
  intros H. unfold without. induction l as [|x l IH]; [reflexivity|].
  rewrite filter_cons. apply not_elem_of_cons in H as [Hne Hl].
  destruct (decide (x ≠ id)) as [_|n]; [|exfalso; apply n; congruence].
  now rewrite IH.
Qed.

Lemma without_head id (l : list NodeId) :
  id ∉ l -> without id (id :: l) = l.
Proof.
  intros H. unfold without. rewrite filter_cons.
  destruct (decide (id ≠ id)); [congruence|]. now apply without_fresh.
Qed.

Lemma without_drop (c : list NodeId) i id :
  NoDup c -> c !! i = Some id -> without id (drop i c) = drop (S i) c.
Proof.
  intros Hnd Hi. rewrite (drop_S _ _ _ Hi). apply without_head.
  rewrite <- (take_drop (S i) c) in Hnd.
  apply NoDup_app in Hnd as (_ & Hdisj & _).
  apply Hdisj. rewrite (take_S_r _ _ _ Hi). set_solver.
Qed.

Lemma without_take (c : list NodeId) i id :
  NoDup c -> c !! i = Some id -> without id (take i c) ++ [id] = take (S i) c.
Proof.
  intros Hnd Hi. rewrite (take_S_r _ _ _ Hi). f_equal.
  apply without_fresh.
  rewrite <- (take_drop i c) in Hnd.
  apply NoDup_app in Hnd as (_ & Hdisj & _).
  intros Hin. apply (Hdisj _ Hin). rewrite (drop_S _ _ _ Hi). set_solver.
Qed.

Lemma produce_html_spec item i w w1 r :
  produce_html sf item i w = (w1, r) ->
  r = markup_of sf (this w) item i /\ host w1 = host w
  /\ settings (this w1) = settings (this w)
  /\ existingNodes (this w1) = existingNodes (this w)
  /\ (forall item' j, markup_of sf (this w1) item' j
                       = markup_of sf (this w) item' j).
Proof.
  destruct w as [h [st c t ct ex]].
  unfold produce_html, markup_of, template_in_use, on_this,
    set_compiledTemplate. simpl.
  destruct (renderCallback st) as [cb|] eqn:Ecb.
  - intros [= <- <-]. simpl. rewrite Ecb. auto 10.
  - destruct (falsy_string ct) eqn:Ef; simpl.
    + intros [= <- <-]. simpl. rewrite Ecb.
      repeat split; auto. intros item' j.
      destruct (String.eqb_spec t ""); simpl; [now subst|reflexivity].
    + destruct ct as [t'|]; [|discriminate]. intros [= <- <-]. simpl.
      simpl in Ef. rewrite Ecb, Ef. auto 10.
Qed.

(** An item that raises leaves the page as it was. *)
Lemma process_item_raised i item frag w w1 e :
  process_item i item frag w = (w1, inl e) -> host w1 = host w.
Proof.
  unfold process_item.
  destruct (produce_html sf item i w) as [w0 [e0|html]] eqn:Ep;
    destruct (produce_html_spec _ _ _ _ _ Ep) as (_ & Hh & _).
  - intros [= <- _]. exact Hh.
  - destruct (if reuseNodes (settings (this w0))
              then existingNodes (this w0) !! i else None);
      [discriminate|].
    destruct (firstElementChild (trim html)) as [[sh inner]|];
      [discriminate|].
    simpl. intros [= <- _]. exact Hh.
Qed.

Section Recycling.
Variable c : list NodeId.
Hypothesis c_NoDup : NoDup c.

Lemma process_item_inv i item frag w w1 frag1 :
  process_item i item frag w = (w1, inr frag1) ->
  loop_inv c w i -> loop_inv c w1 (S i).
Proof.
  intros H (Hraf & Hfresh & Hex & Hch).
  destruct (process_item_frame _ _ _ _ _ _ H Hraf)
    as (R & _ & _ & S & _ & _ & X).
  unfold loop_inv, remaining in *. rewrite S, X.
  split; [exact R|].
  unfold process_item in H.
  destruct (produce_html sf item i w) as [w0 [e0|html]] eqn:Ep;
    [discriminate|].
  destruct (produce_html_spec _ _ _ _ _ Ep) as (_ & Hh & Hs & Hx & _).
  rewrite Hs, Hx in H.
  destruct (reuseNodes (settings (this w))) eqn:Er.
  - rewrite (Hex eq_refl) in H.
    destruct (c !! i) as [id|] eqn:Ei.
    + unfold appendChild in H. injection H as <- <-. simpl.
      rewrite Hh. split; [exact Hfresh|]. split; [auto|].
      rewrite Hch. now apply without_drop.
    + destruct (firstElementChild (trim html)) as [[sh inner]|];
        [|discriminate].
      unfold appendChild in H. simpl in H. injection H as <- <-. simpl.
      rewrite Hh, Hch.
      apply lookup_ge_None in Ei.
      rewrite !drop_ge by lia.
      split; [|split; [auto|reflexivity]].
      eapply Forall_impl; [exact Hfresh|]. simpl. intros; lia.
  - destruct (firstElementChild (trim html)) as [[sh inner]|];
      [|discriminate].
    unfold appendChild in H. simpl in H. injection H as <- <-. simpl.
    rewrite Hh, Hch.
    split; [eapply Forall_impl; [exact Hfresh|]; simpl; intros; lia|].
    split; [discriminate|].
    apply without_fresh. intros Hin.
    rewrite Forall_forall in Hfresh. specialize (Hfresh _ Hin). lia.
Qed.

(** The container after the loop over [items]: with recycling it has
    lost the captured nodes at the positions the loop completed. *)
Lemma for_items_children items : forall i frag w w1 r,
  for_items i items frag w = (w1, r) ->
  loop_inv c w i ->
  children (host w1) = remaining c w (i + completed firstElementChild sf i items frag w).
Proof.
  induction items as [|item rest IH]; intros i frag w w1 r; simpl.
  - intros [= <- <-] (_ & _ & _ & Hch). now rewrite Nat.add_0_r.
  - destruct (process_item i item frag w) as [w2 [e|frag2]] eqn:E;
      intros H Hinv.
    + injection H as <- <-. rewrite (process_item_raised _ _ _ _ _ _ E).
      destruct Hinv as (_ & _ & _ & Hch). now rewrite Nat.add_0_r.
    + pose proof (process_item_inv _ _ _ _ _ _ E Hinv) as Hinv2.
      rewrite (IH _ _ _ _ _ H Hinv2). unfold remaining.
      destruct Hinv as (Hraf & _).
      destruct (process_item_frame _ _ _ _ _ _ E Hraf)
        as (_ & _ & _ & S & _).
      rewrite S, Nat.add_succ_r. reflexivity.
Qed.

End Recycling.

Lemma take_min {A} (l : list A) n : take (Nat.min n (length l)) l = take n l.
Proof.
  destruct (Nat.le_ge_cases n (length l)) as [H|H].
  - now rewrite Nat.min_l.
  - rewrite Nat.min_r by exact H. now rewrite !take_ge by lia.
Qed.

(** A first batch that raises: [render] catches and logs. *)
Lemma render_first_batch_raised items w w1 w2 e :
  templateHtml (this w) <> "" ->
  capture w = (w1, None) ->
  for_items 0 (take (batchSize (settings (this w))) items) [] w1
  = (w2, inl e) ->
  render (DArray items) w = on_host (console_error (RenderError e)) w2.
Proof.
  intros Ht Hc Hf. unfold render, processBatch.
  destruct (String.eqb_spec (templateHtml (this w)) ""); [contradiction|].
  rewrite Hc. change (drop 0 items) with items.
  rewrite Nat.add_0_l, Nat.sub_0_r, take_min, Hf. reflexivity.
Qed.

(** *** The batch size is read by the scheduler only *)

Local Abbreviation resize b := (with_settings (with_batchSize b)).

Lemma process_item_resize b i item frag w :
  process_item i item frag (resize b w) =
  (resize b (fst (process_item i item frag w)),
   snd (process_item i item frag w)).
Proof.
  destruct w as [h [st c t ct ex]]. destruct st as [co da te rc va ba ru].
  unfold process_item, produce_html, appendChild, create,
    with_settings, with_batchSize, on_host, on_this, set_compiledTemplate,
    set_settings. simpl.
  destruct rc as [cb|]; simpl.
  - destruct (cb t item i); simpl; [reflexivity|].
    destruct ru; simpl; [destruct (ex !! i); simpl; [reflexivity|]|];
      destruct (firstElementChild (trim s)) as [[? ?]|]; reflexivity.
  - destruct (falsy_string ct); simpl.
    + destruct ru; simpl; [destruct (ex !! i); simpl; [reflexivity|]|];
        destruct (firstElementChild _) as [[? ?]|]; reflexivity.
    + destruct ct; simpl; [|reflexivity].
      destruct ru; simpl; [destruct (ex !! i); simpl; [reflexivity|]|];
        destruct (firstElementChild _) as [[? ?]|]; reflexivity.
Qed.

Lemma for_items_resize b items : forall i frag w,
  for_items i items frag (resize b w) =
  (resize b (fst (for_items i items frag w)),
   snd (for_items i items frag w)).
Proof.
  induction items as [|item rest IH]; intros i frag w; simpl; [reflexivity|].
  rewrite process_item_resize.
  destruct (process_item i item frag w) as [w1 [e|frag1]]; simpl;
    [reflexivity|apply IH].
Qed.

Lemma commit_resize b n frag w :
  commit n frag (resize b w) =
  (resize b (fst (commit n frag w)), snd (commit n frag w)).
Proof.
  destruct w as [h [st c t ct ex]]. destruct st as [co da te rc va ba ru].
  unfold commit, with_settings, with_batchSize, on_host, on_this. simpl.
  destruct c; reflexivity.
Qed.

Lemma capture_resize b w :
  capture (resize b w) = (resize b (fst (capture w)), snd (capture w)).
Proof.
  destruct w as [h [st c t ct ex]]. destruct st as [co da te rc va ba ru].
  unfold capture, with_settings, with_batchSize, on_host, on_this. simpl.
  destruct ru, c; reflexivity.
Qed.

Lemma single_pass_resize b items start frag w :
  single_pass firstElementChild sf items start frag (resize b w) =
  (resize b (fst (single_pass firstElementChild sf items start frag w)),
   snd (single_pass firstElementChild sf items start frag w)).
Proof.
  unfold single_pass. rewrite for_items_resize.
  destruct (for_items start (drop start items) frag w) as [w1 [e|frag1]];
    simpl; [reflexivity|apply commit_resize].
Qed.

Lemma log_resize b l w :
  on_host (console_error l) (resize b w) = resize b (on_host (console_error l) w).
Proof. reflexivity. Qed.

(** The single pass does not look at the batch size. *)
Lemma render_unbatched_resize b items w :
  render_unbatched firstElementChild sf items (resize b w) =
  resize b (render_unbatched firstElementChild sf items w).
Proof.
  unfold render_unbatched.
  change (templateHtml (this (resize b w))) with (templateHtml (this w)).
  destruct (String.eqb (templateHtml (this w)) ""); [reflexivity|].
  rewrite capture_resize.
  destruct (capture w) as [w1 [e|]]; simpl; [reflexivity|].
  rewrite single_pass_resize.
  destruct (single_pass firstElementChild sf items 0 [] w1) as [w2 [e|]];
    reflexivity.
Qed.

Lemma raises_resize b items w :
  raises firstElementChild sf items (resize b w)
  = raises firstElementChild sf items w.
Proof.
  unfold raises. rewrite capture_resize.
  destruct (capture w) as [w1 [e|]]; simpl; [reflexivity|].
  now rewrite single_pass_resize.
Qed.

End CoreFacts.

(** ** Recycling all the way: fewer items than captured nodes *)

Section Reuse.
Variable firstElementChild : string -> option (string * string).
Variable sf : surface.
Variable c : list NodeId.
Hypothesis c_NoDup : NoDup c.

Lemma reuse_step i id item frag w html :
  reuseNodes (settings (this w)) = true -> existingNodes (this w) = c ->
  c !! i = Some id -> markup_of sf (this w) item i = inr html ->
  exists w1,
    process_item firstElementChild sf i item frag w
    = (w1, inr (without id frag ++ [id]))
    /\ host w1 = detach id (assign_innerHTML id (trim html) (host w))
    /\ settings (this w1) = settings (this w)
    /\ this_container (this w1) = this_container (this w)
    /\ existingNodes (this w1) = existingNodes (this w)
    /\ (forall item' j, markup_of sf (this w1) item' j
                         = markup_of sf (this w) item' j).
Proof.
  intros Hr Hex Hi Hm. unfold process_item.
  destruct (produce_html sf item i w) as [w0 r] eqn:Ep.
  destruct (produce_html_spec sf _ _ _ _ _ Ep) as (-> & Hh & Hs & Hx & Hmk).
  rewrite Hm, Hs, Hx, Hr, Hex, Hi. unfold appendChild.
  eexists. split; [reflexivity|]. simpl. rewrite Hh.
  assert (Htc : this_container (this w0) = this_container (this w)).
  { clear -Ep. unfold produce_html in Ep.
    destruct (renderCallback (settings (this w))); [congruence|].
    destruct (falsy_string (compiledTemplate (this w)));
      destruct w as [? []]; simpl in *;
      repeat case_match; simplify_eq; reflexivity. }
  repeat split; auto; congruence.
Qed.

Lemma reuse_loop items : forall i w,
  reuseNodes (settings (this w)) = true -> existingNodes (this w) = c ->
  raf (host w) = [] -> children (host w) = drop i c ->
  i + length items <= length c ->
  (forall k item, items !! k = Some item ->
     exists html, markup_of sf (this w) item (i + k) = inr html) ->
  exists w1,
    for_items firstElementChild sf i items (take i c) w
    = (w1, inr (take (i + length items) c))
    /\ children (host w1) = drop (i + length items) c
    /\ (forall k id item html,
          items !! k = Some item -> c !! (i + k) = Some id ->
          markup_of sf (this w) item (i + k) = inr html ->
          nodes (host w1) !! id
          = set_innerHTML (trim html) <$> nodes (host w) !! id)
    /\ (forall id, id ∉ take (length items) (drop i c) ->
          nodes (host w1) !! id = nodes (host w) !! id).
Proof.
  induction items as [|item rest IH]; intros i w Hr Hex Hraf Hch Hlen Hok.
  - exists w. simpl. rewrite Nat.add_0_r.
    repeat split; auto. intros k id item html Hk. discriminate.
  - simpl in Hlen.
    destruct (lookup_lt_is_Some_2 c i) as [id Hi]; [lia|].
    destruct (Hok 0 item eq_refl) as [html Hm]. rewrite Nat.add_0_r in Hm.
    destruct (reuse_step i id item (take i c) w html Hr Hex Hi Hm)
      as (w2 & Hstep & Hh2 & Hs2 & _ & Hx2 & Hmk2).
    rewrite (without_take c i id c_NoDup Hi) in Hstep.
    assert (Hch2 : children (host w2) = drop (S i) c).
    { rewrite Hh2. simpl. rewrite Hch. now apply without_drop. }
    assert (Hraf2 : raf (host w2) = []) by (rewrite Hh2; simpl; now rewrite Hraf).
    assert (Hn2 : nodes (host w2)
                  = alter (set_innerHTML (trim html)) id (nodes (host w)))
      by (rewrite Hh2; reflexivity).
    destruct (IH (S i) w2) as (w1 & Hfor & Hch1 & Hset & Hkeep).
    + now rewrite Hs2.
    + now rewrite Hx2.
    + exact Hraf2.
    + exact Hch2.
    + lia.
    + intros k item' Hk. rewrite Hmk2.
      replace (S i + k) with (i + S k) by lia. apply (Hok (S k)). exact Hk.
    + exists w1. simpl. rewrite Hstep, Hfor.
      replace (S i + length rest) with (i + S (length rest)) in * by lia.
      split; [reflexivity|]. split; [exact Hch1|]. split.
      * intros k id' item' html' Hk Hid Hm'.
        destruct k as [|k].
        -- rewrite Nat.add_0_r in Hid, Hm'. simpl in Hk.
           assert (id' = id) by congruence. subst id'.
           assert (item' = item) by congruence. subst item'.
           assert (html' = html) by congruence. subst html'.
           rewrite Hkeep, Hn2; [apply lookup_alter_eq|].
           intros Hin. apply list_elem_of_lookup in Hin as [j Hj].
           apply lookup_take_Some in Hj as [Hj _].
           rewrite lookup_drop in Hj.
           pose proof (NoDup_lookup _ _ _ _ c_NoDup Hi Hj). lia.
        -- simpl in Hk.
           replace (i + S k) with (S i + k) in * by lia.
           rewrite (Hset k id' item' html' Hk Hid)
             by (rewrite Hmk2; exact Hm').
           rewrite Hn2, lookup_alter_ne; [reflexivity|].
           intros ->. pose proof (NoDup_lookup _ _ _ _ c_NoDup Hi Hid). lia.
      * intros id' Hnot.
        rewrite (drop_S _ _ _ Hi) in Hnot. simpl in Hnot.
        apply not_elem_of_cons in Hnot as [Hne Hnot].
        rewrite (Hkeep _ Hnot), Hn2. now apply lookup_alter_ne.
Qed.

Lemma foldl_detach_nodes l : forall h,
  nodes (foldl (λ h id, detach id h) h l) = nodes h.
Proof. induction l as [|x l IH]; intros h; simpl; [reflexivity|]. now rewrite IH. Qed.

Lemma filter_all {A} (P : A -> Prop) `{forall x, Decision (P x)} (l : list A) :
  Forall P l -> filter P l = l.
Proof.
  induction 1 as [|x l Hx _ IH]; [reflexivity|].
  rewrite filter_cons. destruct (decide (P x)); [|contradiction].
  now rewrite IH.
Qed.

Lemma commit_reuse n w :
  reuseNodes (settings (this w)) = true -> this_container (this w) = true ->
  existingNodes (this w) = c ->
  exists w1,
    commit n (take n c) w = (w1, None)
    /\ children (host w1) = take n c
    /\ nodes (host w1) = nodes (host w).
Proof.
  intros Hr Hc Hex. unfold commit. rewrite Hr, Hex. simpl. rewrite Hc.
  eexists. split; [reflexivity|]. simpl. split.
  - apply filter_all. apply Forall_forall. intros id Hin Hin'.
    pose proof c_NoDup as Hnd. rewrite <- (take_drop n c) in Hnd.
    apply NoDup_app in Hnd as (_ & Hdisj & _). exact (Hdisj _ Hin Hin').
  - apply foldl_detach_nodes.
Qed.

End Reuse.

(** * The claims *)

(** C1. For every data sequence and every batch size of one or more, the
    render and the frames it schedules end, and the element store and the
    container's children they leave are those of one pass from left to
    right over the whole array followed by the swap, which does not
    depend on the batch size. *)
Theorem batching_is_scheduling_only
    (parse : string -> option (string * string)) (sf : surface)
    (items : list Item) (w : World) (bs : nat) :
  1 <= bs -> raf (host w) = [] ->
  exists n w',
    run_frames parse sf (batches_needed (length items) bs)
      (render parse sf (DArray items) (with_settings (with_batchSize bs) w))
    = Some (n, w')
    /\ nodes (host w') = nodes (host (render_unbatched parse sf items w))
    /\ children (host w')
       = children (host (render_unbatched parse sf items w)).
Proof.
  intros Hbs Hraf.
  destruct (render_run parse sf items (with_settings (with_batchSize bs) w)
              (batches_needed (length items) bs))
    as (n & w' & Hrun & _ & Hpage & _).
  - destruct w as [h [[] ? ? ? ?]]. exact Hbs.
  - exact Hraf.
  - destruct w as [h [[] ? ? ? ?]]. simpl. lia.
  - exists n, w'. split.
    + destruct w as [h [[] ? ? ? ?]]. exact Hrun.
    + rewrite render_unbatched_resize in Hpage.
      destruct Hpage as (Hn & _ & Hc & _). split; [exact Hn|exact Hc].
Qed.

Lemma batching_is_scheduling_only_witness :
  exists n w',
    run_frames sample_parser Class (batches_needed (length abc) 2)
      (render sample_parser Class (DArray abc)
         (with_settings (with_batchSize 2) sample_world))
    = Some (n, w')
    /\ nodes (host w')
       = nodes (host (render_unbatched sample_parser Class abc sample_world))
    /\ children (host w')
       = children (host (render_unbatched sample_parser Class abc sample_world)).
Proof.
  apply (batching_is_scheduling_only sample_parser Class abc sample_world 2);
    [lia | reflexivity].
Defined.

(** C9. With a batch size of one or more every render ends: the end index
    of a batch lies beyond its start, the render and the [n] frames it
    schedules empty the queue, [n] being less than the ceiling of
    N / batchSize (one for an empty array), and a render that reaches its
    swap, the template being non-empty and nothing being raised, has taken
    exactly that many batches: the first one and [n] frames. *)
Theorem render_terminates
    (parse : string -> option (string * string)) (sf : surface)
    (items : list Item) (w : World) :
  1 <= batchSize (settings (this w)) -> raf (host w) = [] ->
  (forall start, start < length items ->
     start < Nat.min (start + batchSize (settings (this w))) (length items))
  /\ exists n w',
       run_frames parse sf
         (batches_needed (length items) (batchSize (settings (this w))))
         (render parse sf (DArray items) w) = Some (n, w')
       /\ raf (host w') = []
       /\ n < batches_needed (length items) (batchSize (settings (this w)))
       /\ (templateHtml (this w) <> "" -> raises parse sf items w = None ->
           S n = batches_needed (length items) (batchSize (settings (this w)))
           /\ w' = render_unbatched parse sf items w).
Proof.
  intros Hbs Hraf. split; [intros; lia|].
  destruct (render_run parse sf items w
              (batches_needed (length items) (batchSize (settings (this w))))
              Hbs Hraf) as (n & w' & Hrun & R & _ & Hn & Hclean); [lia|].
  exists n, w'. auto.
Qed.

Lemma render_terminates_witness :
  (forall start, start < 3 -> start < Nat.min (start + 2) 3)
  /\ exists n w',
       run_frames sample_parser Class (batches_needed 3 2)
         (render sample_parser Class (DArray abc)
            (with_settings (with_batchSize 2) sample_world)) = Some (n, w')
       /\ raf (host w') = []
       /\ n < batches_needed 3 2
       /\ (templateHtml (this (with_settings (with_batchSize 2) sample_world))
             <> "" ->
           raises sample_parser Class abc
             (with_settings (with_batchSize 2) sample_world) = None ->
           S n = batches_needed 3 2
           /\ w' = render_unbatched sample_parser Class abc
                     (with_settings (with_batchSize 2) sample_world)).
Proof.
  apply (render_terminates sample_parser Class abc
           (with_settings (with_batchSize 2) sample_world));
    [simpl; lia | reflexivity].
Defined.

Example three_items_two_batches :
  (λ r, (fst r, children (host (snd r)), console (host (snd r)))) <$>
    run_frames sample_parser Class 2
      (render sample_parser Class (DArray abc)
         (with_settings (with_batchSize 2) sample_world))
  = Some (1, [0; 1; 2], [])
  /\ raises sample_parser Class abc
       (with_settings (with_batchSize 2) sample_world) = None.
Proof. split; vm_compute; reflexivity. Qed.

(** With a batch size of zero a render of a non-empty array never gets
    past its first item: every frame schedules the next. *)
Example zero_batch_size_never_ends :
  run_frames sample_parser Class 50
    (render sample_parser Class (DArray abc)
       (with_settings (with_batchSize 0) sample_world)) = None.
Proof. vm_compute. reflexivity. Qed.

(** The class's substituter on one placeholder: the claim of C2 holds for
    it. *)
Lemma class_placeholder pre key post (item : Item) i :
  key <> "" -> all_word key = true -> key <> "index" ->
  default_substitute Class (pre +:+ "{{" +:+ key +:+ "}}" +:+ post) item i =
  default_substitute Class pre item i
  +:+ match item !! key with
      | None | Some VUndefined | Some VNull => ""
      | Some v => ToString v
      end
  +:+ default_substitute Class post item i.
Proof.
  intros Hne Hw Hidx. unfold default_substitute.
  rewrite replace_placeholders_app by assumption.
  do 2 f_equal. unfold replacer, nullish_coalesce, get.
  destruct (String.eqb_spec key "index"); [contradiction|].
  destruct (item !! key) as [[]|]; reflexivity.
Qed.

(** C2. The plugin's substituter at the failing input: a value of zero is
    replaced by the empty string, where the class prints it. *)
Theorem plugin_drops_zero :
  default_substitute Plugin "<b>{{value}}</b>" {[ "value" := VNum 0 ]} 0
  = "<b></b>"
  /\ default_substitute Class "<b>{{value}}</b>" {[ "value" := VNum 0 ]} 0
     = "<b>0</b>".
Proof. split; vm_compute; reflexivity. Qed.

(** C3. In every template and for every item, whatever it holds, the
    placeholder [{{index}}] is replaced by the decimal numeral of the
    position plus one, on both surfaces; what stands before and after it
    is substituted on its own. *)
Theorem index_placeholder (sf : surface) (pre post : string)
    (item : Item) (i : nat) :
  default_substitute sf (pre +:+ "{{index}}" +:+ post) item i =
  default_substitute sf pre item i +:+ string_of_nat (i + 1)
  +:+ default_substitute sf post item i.
Proof.
  unfold default_substitute.
  change (pre +:+ "{{index}}" +:+ post)
    with (pre +:+ "{{" +:+ "index" +:+ "}}" +:+ post).
  rewrite replace_placeholders_app by (reflexivity || discriminate).
  reflexivity.
Qed.

Example index_wins_over_item_key :
  default_substitute Class "{{index}}/{{name}}"
    (<["index" := VStr "x"]> (named "A")) 4 = "5/A"
  /\ default_substitute Plugin "{{index}}/{{name}}"
       (<["index" := VStr "x"]> (named "A")) 4 = "5/A".
Proof. split; vm_compute; reflexivity. Qed.

(** The loop hands each item its position in the data: the item at
    offset [k] of a slice that starts at [start] is substituted with
    [start + k]. *)
Lemma for_items_position parse sf front item rest start frag w w1 frag1 :
  for_items parse sf start front frag w = (w1, inr frag1) ->
  for_items parse sf start (front ++ item :: rest) frag w =
  match process_item parse sf (start + length front) item frag1 w1 with
  | (w2, inr frag2) =>
      for_items parse sf (S (start + length front)) rest frag2 w2
  | (w2, inl e) => (w2, inl e)
  end.
Proof. intros H. rewrite for_items_app, H. reflexivity. Qed.

(** C4, the statement that fails: a zero is printed by the class and
    dropped by the plugin, and on data that is no array the class throws
    where the plugin logs. *)
Lemma surfaces_differ :
  default_substitute Class "{{n}}" {[ "n" := VNum 0 ]} 0
  <> default_substitute Plugin "{{n}}" {[ "n" := VNum 0 ]} 0
  /\ FastLoop.constructor sample_parser (set_data DNoLength ab_settings)
       empty_page
     = (empty_page, inl (Error "Data must be an array!"))
  /\ LoopHtml.loopHtml sample_parser (set_data DNoLength ab_settings)
       empty_page
     = (console_error (Message "Data must be an array!") empty_page, None).
Proof. split; [vm_compute; discriminate|split; reflexivity]. Qed.

(** C4, amended.  On an item none of whose values is [false], [0] or
    [NaN] the two default substituters produce the same markup for every
    template and index; and both surfaces make the same check of the data
    and the template with the same message, which the class throws from
    its constructor and the plugin logs before it returns, and both go on
    to render when the check passes. *)
Theorem surfaces_agree
    (parse : string -> option (string * string)) (options : Settings)
    (h : Host) (tpl : string) (item : Item) (i : nat) :
  (forall key v, item !! key = Some v -> or_drops v = false) ->
  container options <> COther ->
  default_substitute Class tpl item i = default_substitute Plugin tpl item i
  /\ match rejected options with
     | Some msg =>
         FastLoop.constructor parse options h = (h, inl (Error msg))
         /\ LoopHtml.loopHtml parse options h
            = (console_error (Message msg) h, None)
     | None =>
         (exists inst, snd (FastLoop.constructor parse options h) = inr inst)
         /\ (exists inst, snd (LoopHtml.loopHtml parse options h) = Some inst)
     end.
Proof.
  intros Hitem Hcont. split.
  - unfold default_substitute. apply replace_placeholders_ext. intros key.
    unfold replacer, nullish_coalesce, logical_or, get.
    destruct (String.eqb key "index"); [reflexivity|].
    destruct (item !! key) as [v|] eqn:E; [|reflexivity].
    specialize (Hitem key v E).
    destruct v as [| |[]|z| |s]; simpl in *; try reflexivity; try discriminate.
    + destruct (Z.eqb z 0); [discriminate|reflexivity].
    + destruct (String.eqb_spec s ""); [now subst|reflexivity].
  - unfold rejected, FastLoop.constructor, FastLoop.init, LoopHtml.loopHtml.
    destruct (container options); try contradiction;
      destruct (validateData options && negb (isArray (data options)));
      try (split; reflexivity);
      destruct (template options); simpl; eauto.
Qed.

Lemma surfaces_agree_witness :
  default_substitute Class "<div>{{name}}</div>" (named "A") 0
  = default_substitute Plugin "<div>{{name}}</div>" (named "A") 0
  /\ match rejected ab_settings with
     | Some msg =>
         FastLoop.constructor sample_parser ab_settings empty_page
         = (empty_page, inl (Error msg))
         /\ LoopHtml.loopHtml sample_parser ab_settings empty_page
            = (console_error (Message msg) empty_page, None)
     | None =>
         (exists inst,
            snd (FastLoop.constructor sample_parser ab_settings empty_page)
            = inr inst)
         /\ (exists inst,
               snd (LoopHtml.loopHtml sample_parser ab_settings empty_page)
               = Some inst)
     end.
Proof.
  apply (surfaces_agree sample_parser ab_settings empty_page
           "<div>{{name}}</div>" (named "A") 0).
  - intros key v. unfold named.
    destruct (decide (key = "name")) as [->|Hne].
    + rewrite lookup_singleton_eq. intros [= <-]. reflexivity.
    + rewrite lookup_singleton_ne by congruence. discriminate.
  - discriminate.
Defined.

(** C5, the statement that fails: with validation on and data that is no
    array, the class's constructor throws. *)
Lemma class_throws_on_invalid_data :
  validateData (set_data DNoLength ab_settings) = true
  /\ isArray (data (set_data DNoLength ab_settings)) = false
  /\ FastLoop.constructor sample_parser (set_data DNoLength ab_settings)
       empty_page
     = (empty_page, inl (Error "Data must be an array!")).
Proof. repeat split. Qed.

(** C5, amended.  With validation on and data that is no array, the
    plugin reports the condition on the console and returns without
    rendering and without an exception, and the class's constructor throws
    an error; neither touches the element store or the container. *)
Theorem invalid_data_policy
    (parse : string -> option (string * string)) (options : Settings)
    (h : Host) :
  validateData options = true -> isArray (data options) = false ->
  LoopHtml.loopHtml parse options h
  = (console_error (Message "Data must be an array!") h, None)
  /\ (exists msg, FastLoop.constructor parse options h = (h, inl (Error msg)))
  /\ (container options <> COther ->
      FastLoop.constructor parse options h
      = (h, inl (Error "Data must be an array!")))
  /\ nodes (fst (LoopHtml.loopHtml parse options h)) = nodes h
  /\ children (fst (LoopHtml.loopHtml parse options h)) = children h
  /\ uncaught (fst (LoopHtml.loopHtml parse options h)) = uncaught h.
Proof.
  intros Hv Ha.
  unfold LoopHtml.loopHtml, FastLoop.constructor, FastLoop.init.
  rewrite Hv, Ha. simpl.
  repeat split; try (destruct (container options); eauto; contradiction).
Qed.

Lemma invalid_data_policy_witness :
  LoopHtml.loopHtml sample_parser (set_data DNullish ab_settings) empty_page
  = (console_error (Message "Data must be an array!") empty_page, None)
  /\ (exists msg,
        FastLoop.constructor sample_parser (set_data DNullish ab_settings)
          empty_page = (empty_page, inl (Error msg)))
  /\ (container (set_data DNullish ab_settings) <> COther ->
      FastLoop.constructor sample_parser (set_data DNullish ab_settings)
        empty_page
      = (empty_page, inl (Error "Data must be an array!")))
  /\ nodes (fst (LoopHtml.loopHtml sample_parser
                   (set_data DNullish ab_settings) empty_page))
     = nodes empty_page
  /\ children (fst (LoopHtml.loopHtml sample_parser
                      (set_data DNullish ab_settings) empty_page))
     = children empty_page
  /\ uncaught (fst (LoopHtml.loopHtml sample_parser
                      (set_data DNullish ab_settings) empty_page))
     = uncaught empty_page.
Proof.
  apply (invalid_data_policy sample_parser (set_data DNullish ab_settings)
           empty_page); reflexivity.
Defined.

(** C10. With an empty template every render returns at once and leaves
    the world as it was, an update changes nothing but the stored data,
    and the render made at construction leaves the page untouched on both
    surfaces, so that the configured data is never rendered. *)
Theorem empty_template_is_noop
    (parse : string -> option (string * string)) (sf : surface)
    (d : jsdata) (w : World) (options : Settings) (h : Host) :
  templateHtml (this w) = "" ->
  template options = TString "" \/ template options = TElement "" ->
  render parse sf d w = w
  /\ host (updateData parse sf d w) = host w
  /\ this (updateData parse sf d w)
     = set_settings (set_data d (settings (this w))) (this w)
  /\ fst (FastLoop.constructor parse options h) = h
  /\ nodes (fst (LoopHtml.loopHtml parse options h)) = nodes h
  /\ children (fst (LoopHtml.loopHtml parse options h)) = children h
  /\ (rejected options = None ->
      fst (LoopHtml.loopHtml parse options h) = h).
Proof.
  intros Ht Ho.
  assert (Hr : forall d' w', templateHtml (this w') = "" ->
                 render parse sf d' w' = w').
  { intros d' w' E. unfold render. rewrite E. reflexivity. }
  split; [apply Hr; exact Ht|].
  unfold updateData. rewrite Hr by (destruct w as [? []]; exact Ht).
  split; [reflexivity|]. split; [reflexivity|].
  unfold FastLoop.constructor, FastLoop.init, LoopHtml.loopHtml, rejected,
    FastLoop.render, LoopHtml.render, render.
  destruct Ho as [-> | ->];
    destruct (container options);
    destruct (validateData options && negb (isArray (data options)));
    simpl; auto 10; repeat split; auto; discriminate.
Qed.

Lemma empty_template_is_noop_witness :
  render sample_parser Class (DArray abc)
    {| host := empty_page; this := fresh_instance blank_settings "" |}
  = {| host := empty_page; this := fresh_instance blank_settings "" |}
  /\ host (updateData sample_parser Class (DArray abc)
             {| host := empty_page; this := fresh_instance blank_settings "" |})
     = empty_page
  /\ this (updateData sample_parser Class (DArray abc)
             {| host := empty_page; this := fresh_instance blank_settings "" |})
     = set_settings (set_data (DArray abc) blank_settings)
         (fresh_instance blank_settings "")
  /\ fst (FastLoop.constructor sample_parser blank_settings empty_page)
     = empty_page
  /\ nodes (fst (LoopHtml.loopHtml sample_parser blank_settings empty_page))
     = nodes empty_page
  /\ children (fst (LoopHtml.loopHtml sample_parser blank_settings empty_page))
     = children empty_page
  /\ (rejected blank_settings = None ->
      fst (LoopHtml.loopHtml sample_parser blank_settings empty_page)
      = empty_page).
Proof.
  apply (empty_template_is_noop sample_parser Class (DArray abc)
           {| host := empty_page; this := fresh_instance blank_settings "" |}
           blank_settings empty_page);
    [reflexivity | left; reflexivity].
Defined.

(** C6, the statement that fails: the callback throws at the second item
    of the first batch; the error is caught and logged, and the container
    has lost its first child, which recycling had moved to the fragment. *)
Lemma aborted_render_loses_recycled_node :
  children (host throwing_world) = [0; 1]
  /\ children (host (render sample_parser Class (DArray abc) throwing_world))
     = [1]
  /\ console (host (render sample_parser Class (DArray abc) throwing_world))
     = [RenderError (Error "boom")]
  /\ uncaught (host (render sample_parser Class (DArray abc) throwing_world))
     = [].
Proof. repeat split; vm_compute; reflexivity. Qed.

(** C6, amended.  When an item of the first batch raises, the render
    catches the error and logs it, no exception escapes, no frame is
    scheduled and no swap takes place; without recycling the container
    keeps its children, with recycling it keeps them but for the captured
    nodes at the positions the loop completed before the failure, which
    were moved to the abandoned fragment; the instance keeps its settings
    and template and is idle, ready for the next render. *)
Theorem aborted_render
    (parse : string -> option (string * string)) (sf : surface)
    (items : list Item) (w w2 : World) (e : exn) :
  templateHtml (this w) <> "" ->
  raf (host w) = [] ->
  NoDup (children (host w)) ->
  Forall (λ id, id < next_id (host w)) (children (host w)) ->
  (reuseNodes (settings (this w)) = true -> this_container (this w) = true) ->
  for_items parse sf 0 (take (batchSize (settings (this w))) items) []
    (fst (capture w)) = (w2, inl e) ->
  render parse sf (DArray items) w
  = on_host (console_error (RenderError e)) w2
  /\ console (host (render parse sf (DArray items) w))
     = console (host w) ++ [RenderError e]
  /\ uncaught (host (render parse sf (DArray items) w)) = uncaught (host w)
  /\ raf (host (render parse sf (DArray items) w)) = []
  /\ children (host (render parse sf (DArray items) w))
     = (if reuseNodes (settings (this w))
        then drop (completed parse sf 0
                     (take (batchSize (settings (this w))) items) []
                     (fst (capture w)))
               (children (host w))
        else children (host w))
  /\ settings (this (render parse sf (DArray items) w)) = settings (this w)
  /\ templateHtml (this (render parse sf (DArray items) w))
     = templateHtml (this w)
  /\ this_container (this (render parse sf (DArray items) w))
     = this_container (this w).
Proof.
  intros Ht Hraf Hnd Hfresh Hcont Hf.
  assert (Hc : exists w1, capture w = (w1, None)
                 /\ host w1 = host w /\ settings (this w1) = settings (this w)
                 /\ templateHtml (this w1) = templateHtml (this w)
                 /\ this_container (this w1) = this_container (this w)
                 /\ (reuseNodes (settings (this w)) = true ->
                     existingNodes (this w1) = children (host w))).
  { unfold capture. destruct (reuseNodes (settings (this w))) eqn:Er.
    - rewrite (Hcont eq_refl). eexists. split; [reflexivity|].
      destruct w as [h []]. simpl. auto 10.
    - exists w. repeat split; auto. discriminate. }
  destruct Hc as (w1 & Hc & Hh & Hs & Htpl & Htc & Hex).
  rewrite Hc in Hf. simpl in Hf.
  rewrite (render_first_batch_raised parse sf items w w1 w2 e Ht Hc Hf).
  assert (Hraf1 : raf (host w1) = []) by now rewrite Hh.
  destruct (for_items_frame _ _ _ _ _ _ _ _ Hf Hraf1)
    as (R & C & U & S & T & K & X).
  assert (Hinv : loop_inv (children (host w)) w1 0).
  { unfold loop_inv, remaining. rewrite Hh, Hs.
    split; [exact Hraf|]. split; [exact Hfresh|]. split; [exact Hex|].
    destruct (reuseNodes (settings (this w))); reflexivity. }
  pose proof (for_items_children parse sf _ Hnd _ _ _ _ _ _ Hf Hinv) as Hch.
  split; [reflexivity|].
  destruct w2 as [[] ?]. simpl in *.
  rewrite C, U, Hh, Hch, Hc. unfold remaining. rewrite Hs.
  repeat split; try congruence.
Qed.

Lemma aborted_render_witness :
  render sample_parser Class (DArray abc) throwing_world
  = on_host (console_error (RenderError (Error "boom")))
      (fst (for_items sample_parser Class 0 abc [] (fst (capture throwing_world))))
  /\ console (host (render sample_parser Class (DArray abc) throwing_world))
     = console (host throwing_world) ++ [RenderError (Error "boom")]
  /\ uncaught (host (render sample_parser Class (DArray abc) throwing_world))
     = uncaught (host throwing_world)
  /\ raf (host (render sample_parser Class (DArray abc) throwing_world)) = []
  /\ children (host (render sample_parser Class (DArray abc) throwing_world))
     = (if reuseNodes (settings (this throwing_world))
        then drop (completed sample_parser Class 0
                     (take (batchSize (settings (this throwing_world))) abc) []
                     (fst (capture throwing_world)))
               (children (host throwing_world))
        else children (host throwing_world))
  /\ settings (this (render sample_parser Class (DArray abc) throwing_world))
     = settings (this throwing_world)
  /\ templateHtml (this (render sample_parser Class (DArray abc) throwing_world))
     = templateHtml (this throwing_world)
  /\ this_container (this (render sample_parser Class (DArray abc) throwing_world))
     = this_container (this throwing_world).
Proof.
  apply (aborted_render sample_parser Class abc throwing_world
           (fst (for_items sample_parser Class 0 abc [] (fst (capture throwing_world))))
           (Error "boom")).
  - discriminate.
  - reflexivity.
  - apply (bool_decide_unpack _). vm_compute. exact I.
  - apply (bool_decide_unpack _). vm_compute. exact I.
  - reflexivity.
  - vm_compute. reflexivity.
Defined.

(** Without recycling the aborted render leaves the container as it
    was. *)
Example aborted_render_without_recycling :
  children (host (render sample_parser Class (DArray abc)
                    (with_settings (with_reuseNodes false) throwing_world)))
  = [0; 1]
  /\ console (host (render sample_parser Class (DArray abc)
                      (with_settings (with_reuseNodes false) throwing_world)))
     = [RenderError (Error "boom")].
Proof. split; vm_compute; reflexivity. Qed.

(** With one item per batch the callback throws in the second batch,
    which the host runs in an animation frame: nothing catches the
    exception, and nothing is logged. *)
Example later_batch_is_not_caught :
  (λ r, (fst r, children (host (snd r)), console (host (snd r)),
         uncaught (host (snd r)))) <$>
    run_frames sample_parser Class 3
      (render sample_parser Class (DArray abc)
         (with_settings (with_batchSize 1) throwing_world))
  = Some (1, [1], [], [Error "boom"]).
Proof. vm_compute. reflexivity. Qed.

(** After the aborted render the instance renders again: one item, for
    which the callback does not throw, replaces the container's
    content. *)
Example usable_after_abort :
  children (host (updateData sample_parser Class (DArray [named "Z"])
                    (render sample_parser Class (DArray abc) throwing_world)))
  = [1]
  /\ innerHTML <$>
       nodes (host (updateData sample_parser Class (DArray [named "Z"])
                      (render sample_parser Class (DArray abc) throwing_world)))
       !! 1
     = Some "<p>ok</p>".
Proof. split; vm_compute; reflexivity. Qed.

(** C7, the statement that fails: the first item's markup is plain text,
    the second's is an element; the constructor's render appends nothing,
    logs the TypeError of [appendChild] and leaves the container empty,
    the second item unrendered. *)
Lemma missing_element_aborts_render :
  sample_parser (trim "text") = None
  /\ (exists el, sample_parser (trim "<p>ok</p>") = Some el)
  /\ children (fst (FastLoop.constructor sample_parser text_then_element
                      empty_page)) = []
  /\ console (fst (FastLoop.constructor sample_parser text_then_element
                     empty_page))
     = [RenderError
          (TypeError "appendChild: parameter 1 is not of type 'Node'")].
Proof.
  split; [reflexivity|]. split; [eexists; reflexivity|].
  split; vm_compute; reflexivity.
Qed.

(** C7, amended.  For an item whose markup yields no element and at whose
    position no captured node is recycled, nothing is appended and
    [appendChild] raises a TypeError: the page is left as it was and the
    loop stops there, the items after it unvisited. *)
Theorem missing_element_raises
    (parse : string -> option (string * string)) (sf : surface)
    (i : nat) (item : Item) (rest : list Item) (frag : list NodeId)
    (w : World) (html : string) :
  markup_of sf (this w) item i = inr html ->
  parse (trim html) = None ->
  reuseNodes (settings (this w)) = false \/ existingNodes (this w) !! i = None ->
  exists w1,
    process_item parse sf i item frag w
    = (w1, inl (TypeError "appendChild: parameter 1 is not of type 'Node'"))
    /\ host w1 = host w
    /\ for_items parse sf i (item :: rest) frag w
       = (w1, inl (TypeError "appendChild: parameter 1 is not of type 'Node'")).
Proof.
  intros Hm Hp Hno.
  assert (H : exists w1,
            process_item parse sf i item frag w
            = (w1, inl (TypeError "appendChild: parameter 1 is not of type 'Node'"))
            /\ host w1 = host w).
  { unfold process_item.
    destruct (produce_html sf item i w) as [w0 r] eqn:Ep.
    destruct (produce_html_spec sf _ _ _ _ _ Ep) as (-> & Hh & Hs & Hx & _).
    rewrite Hm, Hs, Hx, Hp.
    assert (Hr : (if reuseNodes (settings (this w))
                  then existingNodes (this w) !! i else None) = None)
      by (destruct Hno as [-> | ->];
          [reflexivity|destruct (reuseNodes _); reflexivity]).
    rewrite Hr. simpl. eauto. }
  destruct H as (w1 & H & Hh). exists w1.
  split; [exact H|]. split; [exact Hh|].
  simpl. rewrite H. reflexivity.
Qed.

Lemma missing_element_raises_witness :
  exists w1,
    process_item sample_parser Class 0 (named "text") [] 
      {| host := empty_page;
         this := fresh_instance text_then_element "{{name}}" |}
    = (w1, inl (TypeError "appendChild: parameter 1 is not of type 'Node'"))
    /\ host w1 = empty_page
    /\ for_items sample_parser Class 0 [named "text"; named "<p>ok</p>"] []
         {| host := empty_page;
            this := fresh_instance text_then_element "{{name}}" |}
       = (w1, inl (TypeError "appendChild: parameter 1 is not of type 'Node'")).
Proof.
  apply (missing_element_raises sample_parser Class 0 (named "text")
           [named "<p>ok</p>"] []
           {| host := empty_page;
              this := fresh_instance text_then_element "{{name}}" |}
           "text");
    [vm_compute; reflexivity | reflexivity | right; reflexivity].
Defined.

(** C8. With recycling on, a render of fewer items than the container has
    children ends with the container holding the first N of the nodes it
    had, the same nodes in the same order: the M - N nodes after them are
    gone from it; each kept node has the markup of the item at its
    position as its inner markup and keeps its shell and what callers
    attached to it; no other node of the store is touched.  The render is
    one that reaches its swap: the template is not empty and no item
    raises. *)
Theorem recycling_shrinks
    (parse : string -> option (string * string)) (sf : surface)
    (items : list Item) (w : World) :
  reuseNodes (settings (this w)) = true ->
  this_container (this w) = true ->
  templateHtml (this w) <> "" ->
  1 <= batchSize (settings (this w)) ->
  raf (host w) = [] ->
  NoDup (children (host w)) ->
  length items < length (children (host w)) ->
  (forall k item, items !! k = Some item ->
     exists html, markup_of sf (this w) item k = inr html) ->
  exists n w',
    run_frames parse sf
      (batches_needed (length items) (batchSize (settings (this w))))
      (render parse sf (DArray items) w) = Some (n, w')
    /\ children (host w') = take (length items) (children (host w))
    /\ length (children (host w)) - length (children (host w'))
       = length (children (host w)) - length items
    /\ (forall id, id ∈ drop (length items) (children (host w)) ->
          id ∉ children (host w'))
    /\ (forall k id item html,
          items !! k = Some item -> children (host w) !! k = Some id ->
          markup_of sf (this w) item k = inr html ->
          nodes (host w') !! id
          = set_innerHTML (trim html) <$> nodes (host w) !! id)
    /\ (forall id, id ∉ take (length items) (children (host w)) ->
          nodes (host w') !! id = nodes (host w) !! id).
Proof.
  intros Hr Hc Ht Hbs Hraf Hnd Hlen Hok.
  set (c := children (host w)) in *.
  set (w1 := on_this (set_existingNodes c) w).
  assert (Hcap : capture w = (w1, None)).
  { unfold capture. rewrite Hr, Hc. reflexivity. }
  assert (Hmk : forall item k, markup_of sf (this w1) item k
                               = markup_of sf (this w) item k)
    by (destruct w as [? []]; reflexivity).
  destruct (reuse_loop parse sf c Hnd items 0 w1)
    as (wL & Hfor & HchL & Hset & Hkeep).
  { destruct w as [? []]; exact Hr. }
  { destruct w as [? []]; reflexivity. }
  { destruct w as [? []]; exact Hraf. }
  { destruct w as [? []]; reflexivity. }
  { simpl. lia. }
  { intros k item Hk. rewrite Hmk. apply Hok. exact Hk. }
  simpl in Hfor, HchL.
  assert (Hraf1 : raf (host w1) = []) by (destruct w as [? []]; exact Hraf).
  destruct (for_items_frame _ _ _ _ _ _ _ _ Hfor Hraf1)
    as (_ & _ & _ & SL & _ & KL & XL).
  destruct (commit_reuse c Hnd (length items) wL) as (wC & Hcom & HchC & HnC).
  { rewrite SL. destruct w as [? []]; exact Hr. }
  { rewrite KL. destruct w as [? []]; exact Hc. }
  { rewrite XL. destruct w as [? []]; reflexivity. }
  assert (Hsp : single_pass parse sf items 0 [] w1 = (wC, None)).
  { unfold single_pass. change (drop 0 items) with items.
    change (@nil NodeId) with (take 0 c) at 1. rewrite Hfor. exact Hcom. }
  assert (Hru : render_unbatched parse sf items w = wC).
  { unfold render_unbatched.
    destruct (String.eqb_spec (templateHtml (this w)) ""); [contradiction|].
    rewrite Hcap, Hsp. reflexivity. }
  assert (Hrs : raises parse sf items w = None).
  { unfold raises. rewrite Hcap, Hsp. reflexivity. }
  destruct (render_run parse sf items w
              (batches_needed (length items) (batchSize (settings (this w))))
              Hbs Hraf) as (n & w' & Hrun & _ & _ & _ & Hclean); [lia|].
  destruct (Hclean Ht Hrs) as [_ ->]. rewrite Hru in Hrun.
  exists n, wC. split; [exact Hrun|]. split; [exact HchC|].
  split; [rewrite HchC, length_take; lia|]. split.
  - intros id Hin. rewrite HchC. intros Hin'.
    pose proof Hnd as Hnd'. rewrite <- (take_drop (length items) c) in Hnd'.
    apply NoDup_app in Hnd' as (_ & Hdisj & _). exact (Hdisj _ Hin' Hin).
  - split.
    + intros k id item html Hk Hid Hm. rewrite HnC.
      rewrite (Hset k id item html Hk Hid) by (rewrite Hmk; exact Hm).
      destruct w as [? []]; reflexivity.
    + intros id Hnot. rewrite HnC, Hkeep by exact Hnot.
      destruct w as [? []]; reflexivity.
Qed.

Lemma recycling_shrinks_witness :
  exists n w',
    run_frames sample_parser Class
      (batches_needed (length [named "Z"])
         (batchSize (settings (this marked_world))))
      (render sample_parser Class (DArray [named "Z"]) marked_world)
    = Some (n, w')
    /\ children (host w') = take (length [named "Z"]) (children (host marked_world))
    /\ length (children (host marked_world)) - length (children (host w'))
       = length (children (host marked_world)) - length [named "Z"]
    /\ (forall id, id ∈ drop (length [named "Z"]) (children (host marked_world)) ->
          id ∉ children (host w'))
    /\ (forall k id item html,
          [named "Z"] !! k = Some item ->
          children (host marked_world) !! k = Some id ->
          markup_of Class (this marked_world) item k = inr html ->
          nodes (host w') !! id
          = set_innerHTML (trim html) <$> nodes (host marked_world) !! id)
    /\ (forall id, id ∉ take (length [named "Z"]) (children (host marked_world)) ->
          nodes (host w') !! id = nodes (host marked_world) !! id).
Proof.
  apply (recycling_shrinks sample_parser Class [named "Z"] marked_world).
  - reflexivity.
  - reflexivity.
  - discriminate.
  - simpl. lia.
  - reflexivity.
  - apply (bool_decide_unpack _). vm_compute. exact I.
  - simpl. lia.
  - intros k item _. unfold markup_of. simpl. eauto.
Defined.

(** The marked node after the shorter render: still the container's
    first child, its marker in place, its inner markup the new item's. *)
Example marker_survives :
  (λ r, (children (host (snd r)), nodes (host (snd r)) !! 0)) <$>
    run_frames sample_parser Class 1
      (render sample_parser Class (DArray [named "Z"]) marked_world)
  = Some ([0],
          Some {| shell := "div"; innerHTML := "<div>Z</div>";
                  expando := {[ "marker" := VStr "mine" ]} |}).
Proof. vm_compute. reflexivity. Qed.

(** * Further properties of the code *)

(** ** The substituters *)

Lemma match_placeholder_needs_open s :
  strip_prefix "{{" s = None -> match_placeholder s = None.
Proof. unfold match_placeholder. now intros ->. Qed.

Lemma replace_placeholders_copy f c s :
  strip_prefix "{{" (String c s) = None ->
  replace_placeholders f (String c s) = String c (replace_placeholders f s).
Proof.
  intros H. rewrite replace_placeholders_eq.
  now rewrite (match_placeholder_needs_open _ H).
Qed.

Lemma strip_open_other c s :
  Ascii.eqb c "{" = false -> strip_prefix "{{" (String c s) = None.
Proof.
  intros H.
  change (strip_prefix "{{" (String c s))
    with (if Ascii.eqb "{" c then strip_prefix "{" s else None).
  rewrite Ascii.eqb_sym in H. now rewrite H.
Qed.



(** The replacement is emitted as it is: a value that looks like a
    placeholder stays in the output. *)
Example replacement_is_not_rescanned :
  default_substitute Class "<b>{{name}}</b>" (named "{{index}}") 0
  = "<b>{{index}}</b>".
Proof. vm_compute. reflexivity. Qed.



(** X3.  A template in which the two opening braces never occur comes out of
    the substituter unchanged, whatever the item and the position. *)
Theorem template_without_placeholder (sf : surface) (tpl : string)
    (item : Item) (i : nat) :
  contains_open tpl = false -> default_substitute sf tpl item i = tpl.
Proof.
  unfold default_substitute. induction tpl as [|c tpl IH]; intros H.
  - rewrite replace_placeholders_eq. reflexivity.
  - cbn [contains_open] in H.
    destruct (strip_prefix "{{" (String c tpl)) eqn:E; [discriminate|].
    rewrite (replace_placeholders_copy _ _ _ E). f_equal. apply IH. exact H.
Qed.

Lemma template_without_placeholder_witness :
  default_substitute Plugin "<li class='{x}'>plain {text}</li>" (named "A") 7
  = "<li class='{x}'>plain {text}</li>".
Proof.
  apply (template_without_placeholder Plugin
           "<li class='{x}'>plain {text}</li>" (named "A") 7).
  reflexivity.
Defined.

Lemma no_brace_app (s t : string) :
  no_brace (s +:+ t) = no_brace s && no_brace t.
Proof.
  induction s as [|c s IH]; [reflexivity|].
  rewrite app_String. cbn [no_brace]. rewrite IH.
  now rewrite !andb_assoc.
Qed.

Lemma replace_placeholders_no_open f (k s : string) :
  no_brace k = true ->
  replace_placeholders f (k +:+ s) = k +:+ replace_placeholders f s.
Proof.
  induction k as [|c k IH]; intros H; [reflexivity|].
  cbn [no_brace] in H.
  apply andb_prop in H as [H Hk]. apply andb_prop in H as [Ho _].
  rewrite !app_String, replace_placeholders_copy.
  - f_equal. apply IH. exact Hk.
  - apply strip_open_other. now apply negb_true_iff.
Qed.

(** The pattern fails on two opening braces followed by text that is
    empty or holds a character that is neither a word character nor a
    brace. *)
Lemma match_placeholder_malformed (k s : string) :
  k = "" \/ all_word k = false -> no_brace k = true ->
  match_placeholder ("{{" +:+ k +:+ "}}" +:+ s) = None.
Proof.
  intros Hbad Hnb. unfold match_placeholder.
  replace (strip_prefix "{{" ("{{" +:+ k +:+ "}}" +:+ s))
    with (Some (k +:+ "}}" +:+ s))
    by (symmetry; apply strip_prefix_Some; reflexivity).
  destruct (take_word k) as [w r] eqn:Ek.
  pose proof (take_word_app _ _ _ Ek) as Hk.
  pose proof (take_word_spec _ _ _ Ek) as [Hw Hr].
  destruct r as [|c0 r].
  - rewrite app_empty_r in Hk. subst w.
    destruct Hbad as [-> | Hbad]; [reflexivity|congruence].
  - subst k. rewrite app_string_assoc.
    rewrite (take_word_complete w (String c0 r +:+ "}}" +:+ s) Hw)
      by (rewrite app_String; exact Hr).
    destruct w as [|a w]; [reflexivity|].
    rewrite no_brace_app in Hnb. apply andb_prop in Hnb as [_ Hnb].
    cbn [no_brace] in Hnb.
    apply andb_prop in Hnb as [Hnb _]. apply andb_prop in Hnb as [_ Hc].
    apply negb_true_iff in Hc.
    rewrite app_String.
    change (strip_prefix "}}" (String c0 (r +:+ "}}" +:+ s)))
      with (if Ascii.eqb "}" c0 then strip_prefix "}" (r +:+ "}}" +:+ s)
            else None).
    rewrite Ascii.eqb_sym in Hc. rewrite Hc. reflexivity.
Qed.

(** X4.  Braces that do not hold a key are no placeholder: when the text
    between [{{] and [}}] is empty, or holds a character outside
    [A-Za-z0-9_] such as a space or a dot, and no brace, the whole is
    copied to the output as it stands, on both surfaces. *)
Theorem malformed_placeholder_is_copied (sf : surface) (k post : string)
    (item : Item) (i : nat) :
  k = "" \/ all_word k = false -> no_brace k = true ->
  default_substitute sf ("{{" +:+ k +:+ "}}" +:+ post) item i
  = "{{" +:+ k +:+ "}}" +:+ default_substitute sf post item i.
Proof.
  intros Hbad Hnb. unfold default_substitute.
  rewrite replace_placeholders_eq.
  rewrite (match_placeholder_malformed k post Hbad Hnb).
  change ("{{" +:+ k +:+ "}}" +:+ post)
    with (String "{" (String "{" (k +:+ "}}" +:+ post))).
  change ("{{" +:+ k +:+ "}}" +:+ replace_placeholders (replacer sf item i) post)
    with (String "{" (String "{" (k +:+ "}}"
            +:+ replace_placeholders (replacer sf item i) post))).
  cbv beta iota. f_equal.
  assert (Hhead : strip_prefix "{{" (String "{" (k +:+ "}}" +:+ post)) = None).
  { destruct k as [|c k]; [reflexivity|].
    cbn [no_brace] in Hnb.
    apply andb_prop in Hnb as [Hnb _]. apply andb_prop in Hnb as [Ho _].
    apply negb_true_iff in Ho. rewrite app_String.
    change (strip_prefix "{{" (String "{" (String c (k +:+ "}}" +:+ post))))
      with (if Ascii.eqb "{" c then Some (k +:+ "}}" +:+ post) else None).
    rewrite Ascii.eqb_sym in Ho. now rewrite Ho. }
  rewrite (replace_placeholders_copy _ _ _ Hhead). f_equal.
  rewrite (replace_placeholders_no_open _ k _ Hnb). f_equal.
  change ("}}" +:+ post) with (String "}" (String "}" post)).
  rewrite !replace_placeholders_copy by reflexivity. reflexivity.
Qed.

Lemma malformed_placeholder_is_copied_witness :
  default_substitute Class ("{{" +:+ " name " +:+ "}}" +:+ "/{{name}}")
    (named "A") 0
  = "{{" +:+ " name " +:+ "}}"
    +:+ default_substitute Class "/{{name}}" (named "A") 0.
Proof.
  apply (malformed_placeholder_is_copied Class " name " "/{{name}}"
           (named "A") 0); [right; reflexivity | reflexivity].
Defined.

(** ** Renders that complete *)

Section Fill.
Variable firstElementChild : string -> option (string * string).
Variable sf : surface.
Variable c : list NodeId.
Variable n0 : nat.
Hypothesis c_NoDup : NoDup c.
Hypothesis c_old : Forall (λ id, id < n0) c.

(** What holds each time the loop of a render without failure reaches
    position [i] with the fragment [frag]. *)
Definition fill_inv (w : World) (i : nat) (frag : list NodeId) : Prop :=
  raf (host w) = []
  /\ (reuseNodes (settings (this w)) = true -> existingNodes (this w) = c)
  /\ children (host w) = remaining c w i
  /\ next_id (host w) = n0 + (i - length (recycled c w))
  /\ frag = filled (recycled c w) n0 i.

Lemma not_in_seq_ge (a len x : nat) : a + len <= x -> x ∉ seq a len.
Proof. intros H Hin. apply elem_of_seq in Hin. lia. Qed.

Lemma old_not_new id : id ∈ c -> id < n0.
Proof. intros Hin. rewrite Forall_forall in c_old. auto. Qed.

Lemma fill_step i item frag w :
  fill_inv w i frag ->
  renders_at firstElementChild sf (recycled c w) (this w) item i ->
  exists w1 frag1,
    process_item firstElementChild sf i item frag w = (w1, inr frag1)
    /\ fill_inv w1 (S i) frag1
    /\ settings (this w1) = settings (this w)
    /\ this_container (this w1) = this_container (this w)
    /\ (forall item' j, markup_of sf (this w1) item' j
                         = markup_of sf (this w) item' j)
    /\ (forall id, n0 <= id < next_id (host w) ->
          nodes (host w1) !! id = nodes (host w) !! id)
    /\ (forall html sh inner,
          length (recycled c w) <= i ->
          markup_of sf (this w) item i = inr html ->
          firstElementChild (trim html) = Some (sh, inner) ->
          nodes (host w1) !! (n0 + (i - length (recycled c w)))
          = Some {| shell := sh; innerHTML := inner; expando := ∅ |})
    /\ (reuseNodes (settings (this w)) = false ->
        forall id, id < next_id (host w) ->
          nodes (host w1) !! id = nodes (host w) !! id).
Proof.
  intros (Hraf & Hex & Hch & Hnext & Hfrag) (html & Hm & Hslot).
  unfold recycled, remaining, filled in *.
  destruct (reuseNodes (settings (this w))) eqn:Er;
    [destruct (Nat.lt_ge_cases i (length c)) as [Hlt|Hge]|].
  - (* a captured node is recycled *)
    apply lookup_lt_is_Some_2 in Hlt as Hi. destruct Hi as [id Hi].
    destruct (reuse_step firstElementChild sf c i id item frag w html Er
                (Hex eq_refl) Hi Hm)
      as (w1 & Hstep & Hh & Hs & Hc & Hx & Hmk).
    exists w1, (without id frag ++ [id]). split; [exact Hstep|].
    assert (Hz : i - length c = 0) by lia.
    assert (Hz' : S i - length c = 0) by lia.
    split; [|split; [exact Hs|split; [exact Hc|split; [exact Hmk|split; [|split]]]]].
    + unfold fill_inv, recycled, remaining, filled. rewrite Hs, Er, Hx, Hh.
      simpl. rewrite Hraf, Hch, Hnext, Hz, Hz'.
      split; [reflexivity|]. split; [auto|].
      split; [now apply without_drop|]. split; [reflexivity|].
      subst frag. rewrite Hz. simpl. rewrite !app_nil_r.
      now apply without_take.
    + intros id' [Hlo _]. rewrite Hh. simpl.
      apply lookup_alter_ne. intros ->.
      pose proof (old_not_new id' (proj2 (list_elem_of_lookup _ _) (ex_intro _ _ Hi))).
      lia.
    + intros ? ? ? Hle. lia.
    + discriminate.
  - (* recycling is on, but the captured nodes are used up *)
    destruct Hslot as [Hslot|[[sh inner] Hp]]; [lia|].
    assert (Hnone : c !! i = None) by now apply lookup_ge_None.
    unfold process_item.
    destruct (produce_html sf item i w) as [w0 r] eqn:Ep.
    destruct (produce_html_spec sf _ _ _ _ _ Ep) as (-> & Hh & Hs & Hx & Hmk).
    assert (Htc : this_container (this w0) = this_container (this w)).
    { clear -Ep. unfold produce_html in Ep.
      destruct (renderCallback (settings (this w))); [congruence|].
      destruct (falsy_string (compiledTemplate (this w)));
        destruct w as [? []]; simpl in *;
        repeat case_match; simplify_eq; reflexivity. }
    rewrite Hm, Hs, Hx, Er, (Hex eq_refl), Hnone, Hp.
    unfold create, appendChild. simpl.
    eexists _, _. split; [reflexivity|].
    assert (Hfresh : next_id (host w) ∉ frag).
    { subst frag. rewrite Hnext. intros Hin.
      apply elem_of_app in Hin as [Hin|Hin].
      - apply elem_of_take in Hin as (j & Hj & _).
        pose proof (old_not_new _ (proj2 (list_elem_of_lookup _ _) (ex_intro _ _ Hj))).
        lia.
      - revert Hin. apply not_in_seq_ge. lia. }
    split; [|split; [exact Hs|split; [exact Htc|split; [exact Hmk|split; [|split]]]]].
    + unfold fill_inv, recycled, remaining, filled. simpl.
      rewrite Hs, Er, Hx, Hh. rewrite Hraf.
      split; [reflexivity|]. split; [exact Hex|].
      split; [rewrite Hch, !drop_ge by lia; reflexivity|].
      split; [rewrite Hnext; lia|].
      rewrite (without_fresh _ _ Hfresh). subst frag.
      rewrite !take_ge by lia.
      replace (S i - length c) with (S (i - length c)) by lia.
      rewrite seq_S, Hnext. now rewrite app_assoc.
    + intros id' [Hlo Hhi]. simpl. rewrite Hh.
      apply lookup_insert_ne. lia.
    + intros html' sh' inner' _ Hm' Hp'. simpl. rewrite Hh, Hnext.
      assert (html' = html) by congruence. subst html'.
      rewrite Hp in Hp'. injection Hp' as <- <-.
      apply lookup_insert_eq.
    + discriminate.
  - (* recycling is off *)
    destruct Hslot as [Hslot|[[sh inner] Hp]]; [simpl in Hslot; lia|].
    unfold process_item.
    destruct (produce_html sf item i w) as [w0 r] eqn:Ep.
    destruct (produce_html_spec sf _ _ _ _ _ Ep) as (-> & Hh & Hs & Hx & Hmk).
    assert (Htc : this_container (this w0) = this_container (this w)).
    { clear -Ep. unfold produce_html in Ep.
      destruct (renderCallback (settings (this w))); [congruence|].
      destruct (falsy_string (compiledTemplate (this w)));
        destruct w as [? []]; simpl in *;
        repeat case_match; simplify_eq; reflexivity. }
    rewrite Hm, Hs, Er, Hp.
    unfold create, appendChild. simpl.
    eexists _, _. split; [reflexivity|].
    simpl in Hnext, Hfrag. rewrite Nat.sub_0_r in Hnext, Hfrag.
    rewrite take_nil in Hfrag. simpl in Hfrag.
    assert (Hfresh : next_id (host w) ∉ frag).
    { subst frag. rewrite Hnext. apply not_in_seq_ge. lia. }
    split; [|split; [exact Hs|split; [exact Htc|split; [exact Hmk|split; [|split]]]]].
    + unfold fill_inv, recycled, remaining, filled. simpl.
      rewrite Hs, Er, Hh. rewrite Hraf.
      split; [reflexivity|]. split; [discriminate|].
      split.
      { rewrite Hch. apply without_fresh. intros Hin.
        pose proof (old_not_new _ Hin). lia. }
      split; [simpl; rewrite Hnext; lia|].
      rewrite (without_fresh _ _ Hfresh). subst frag.
      rewrite take_nil. simpl. rewrite Hnext.
      change (n0 :: seq (S n0) i) with (seq n0 (S i)). now rewrite seq_S.
    + intros id' [Hlo Hhi]. simpl. rewrite Hh.
      apply lookup_insert_ne. lia.
    + intros html' sh' inner' _ Hm' Hp'. simpl. rewrite Hh, Hnext.
      assert (html' = html) by congruence. subst html'.
      rewrite Hp in Hp'. injection Hp' as <- <-.
      rewrite Nat.sub_0_r. apply lookup_insert_eq.
    + intros _ id' Hlt. simpl. rewrite Hh. apply lookup_insert_ne. lia.
Qed.

Lemma renders_at_stable slots inst1 inst2 item j :
  (forall item' j', markup_of sf inst1 item' j' = markup_of sf inst2 item' j') ->
  renders_at firstElementChild sf slots inst2 item j ->
  renders_at firstElementChild sf slots inst1 item j.
Proof. intros H (html & Hm & Hs). exists html. rewrite H. auto. Qed.

Lemma recycled_stable w1 w2 :
  settings (this w1) = settings (this w2) -> recycled c w1 = recycled c w2.
Proof. unfold recycled. now intros ->. Qed.

Lemma fill_loop items : forall i frag w,
  fill_inv w i frag ->
  (forall k item, items !! k = Some item ->
     renders_at firstElementChild sf (recycled c w) (this w) item (i + k)) ->
  exists w1 frag1,
    for_items firstElementChild sf i items frag w = (w1, inr frag1)
    /\ fill_inv w1 (i + length items) frag1
    /\ settings (this w1) = settings (this w)
    /\ this_container (this w1) = this_container (this w)
    /\ (forall id, n0 <= id < next_id (host w) ->
          nodes (host w1) !! id = nodes (host w) !! id)
    /\ (forall k item html sh inner,
          items !! k = Some item ->
          length (recycled c w) <= i + k ->
          markup_of sf (this w) item (i + k) = inr html ->
          firstElementChild (trim html) = Some (sh, inner) ->
          nodes (host w1) !! (n0 + (i + k - length (recycled c w)))
          = Some {| shell := sh; innerHTML := inner; expando := ∅ |})
    /\ (reuseNodes (settings (this w)) = false ->
        forall id, id < next_id (host w) ->
          nodes (host w1) !! id = nodes (host w) !! id).
Proof.
  induction items as [|item rest IH]; intros i frag w Hinv Hok.
  - exists w, frag. simpl. rewrite Nat.add_0_r.
    split; [reflexivity|]. split; [exact Hinv|].
    split; [reflexivity|]. split; [reflexivity|]. split; [auto|].
    split; [|auto]. intros k item html sh inner Hk. discriminate.
  - pose proof (Hok 0 item eq_refl) as Hok0. rewrite Nat.add_0_r in Hok0.
    destruct (fill_step i item frag w Hinv Hok0)
      as (w2 & frag2 & Hstep & Hinv2 & Hs2 & Hc2 & Hmk2 & Hkeep2 & Hnew2 & Hoff2).
    pose proof (recycled_stable w2 w Hs2) as Hrec.
    destruct (IH (S i) frag2 w2 Hinv2)
      as (w1 & frag1 & Hfor & Hinv1 & Hs1 & Hc1 & Hkeep1 & Hnew1 & Hoff1).
    { intros k item' Hk. rewrite Hrec.
      apply (renders_at_stable _ _ (this w) _ _ Hmk2).
      replace (S i + k) with (i + S k) by lia. apply (Hok (S k)). exact Hk. }
    assert (Hnext : next_id (host w) <= next_id (host w2)).
    { destruct Hinv as (_ & _ & _ & Hn & _).
      destruct Hinv2 as (_ & _ & _ & Hn2 & _). rewrite Hn, Hn2, Hrec. lia. }
    exists w1, frag1. simpl. rewrite Hstep.
    replace (i + S (length rest)) with (S i + length rest) by lia.
    split; [exact Hfor|]. split; [exact Hinv1|].
    split; [congruence|]. split; [congruence|]. split; [|split].
    + intros id Hid. rewrite Hkeep1 by lia. now apply Hkeep2.
    + intros k item' html sh inner Hk Hle Hm Hp.
      destruct k as [|k].
      * rewrite Nat.add_0_r in *. simpl in Hk.
        assert (item' = item) by congruence. subst item'.
        rewrite Hkeep1; [now apply (Hnew2 html)|].
        destruct Hinv2 as (_ & _ & _ & Hn2 & _). rewrite Hn2, Hrec. lia.
      * simpl in Hk.
        replace (i + S k) with (S i + k) in * by lia.
        rewrite <- Hrec. apply (Hnew1 k item' html); auto.
        -- now rewrite Hrec.
        -- now rewrite Hmk2.
    + intros Hoff id Hid. rewrite Hoff1; [now apply Hoff2|congruence|lia].
Qed.

(** The swap after a loop that completed. *)
Lemma commit_filled n frag w :
  this_container (this w) = true -> fill_inv w n frag ->
  exists w1,
    commit n frag w = (w1, None)
    /\ children (host w1) = frag
    /\ nodes (host w1) = nodes (host w)
    /\ next_id (host w1) = next_id (host w)
    /\ this w1 = this w.
Proof.
  intros Hc (Hraf & Hex & _ & _ & Hfrag). unfold commit.
  change (this_container (this (on_host
            (λ h, foldl (λ h id, detach id h) h
                    (if reuseNodes (settings (this w))
                     then drop n (existingNodes (this w)) else [])) w)))
    with (this_container (this w)).
  rewrite Hc. eexists. split; [reflexivity|]. simpl.
  split; [|split; [apply foldl_detach_nodes|split; [|reflexivity]]].
  - apply filter_all. apply Forall_forall. intros id Hin.
    unfold recycled, filled in Hfrag.
    destruct (reuseNodes (settings (this w))) eqn:Er;
      [|apply not_elem_of_nil].
    rewrite (Hex eq_refl). subst frag. intros Hin'.
    apply elem_of_app in Hin as [Hin|Hin].
    + pose proof c_NoDup as Hnd. rewrite <- (take_drop n c) in Hnd.
      apply NoDup_app in Hnd as (_ & Hdisj & _). exact (Hdisj _ Hin Hin').
    + apply elem_of_seq in Hin.
      pose proof (old_not_new id (subseteq_drop _ _ _ Hin')). lia.
  - generalize (host w).
    induction (if reuseNodes (settings (this w))
               then drop n (existingNodes (this w)) else [])
      as [|x l IHl]; intros h; simpl; [reflexivity|].
    now rewrite IHl.
Qed.

End Fill.

Lemma process_item_markup_of parse sf i item frag w w1 r :
  process_item parse sf i item frag w = (w1, r) ->
  forall item' j, markup_of sf (this w1) item' j = markup_of sf (this w) item' j.
Proof.
  unfold process_item.
  destruct (produce_html sf item i w) as [w0 r0] eqn:Ep.
  destruct (produce_html_spec sf _ _ _ _ _ Ep) as (_ & _ & _ & _ & Hmk).
  destruct r0 as [e|html]; [intros [= <- _]; exact Hmk|].
  destruct (if reuseNodes (settings (this w0))
            then existingNodes (this w0) !! i else None) as [el|].
  - unfold appendChild. intros [= <- _]. exact Hmk.
  - destruct (parse (trim html)) as [[sh inner]|];
      unfold appendChild; simpl; intros [= <- _]; exact Hmk.
Qed.

Lemma for_items_markup_of parse sf items : forall i frag w w1 r,
  for_items parse sf i items frag w = (w1, r) ->
  forall item' j, markup_of sf (this w1) item' j = markup_of sf (this w) item' j.
Proof.
  induction items as [|item rest IH]; intros i frag w w1 r; simpl.
  - intros [= <- _]. reflexivity.
  - destruct (process_item parse sf i item frag w) as [w2 [e|frag2]] eqn:E;
      intros H item' j.
    + injection H as <- _. apply (process_item_markup_of _ _ _ _ _ _ _ _ E).
    + rewrite (IH _ _ _ _ _ H).
      apply (process_item_markup_of _ _ _ _ _ _ _ _ E).
Qed.

(** A render every item of which the loop completes, followed to its
    swap. *)
Lemma render_completes parse sf items w :
  templateHtml (this w) <> "" -> this_container (this w) = true ->
  1 <= batchSize (settings (this w)) -> raf (host w) = [] ->
  NoDup (children (host w)) ->
  Forall (λ id, id < next_id (host w)) (children (host w)) ->
  (forall k item, items !! k = Some item ->
     renders_at parse sf (recycled (children (host w)) w) (this w) item k) ->
  exists n w',
    run_frames parse sf
      (batches_needed (length items) (batchSize (settings (this w))))
      (render parse sf (DArray items) w) = Some (n, w')
    /\ S n = batches_needed (length items) (batchSize (settings (this w)))
    /\ children (host w')
       = filled (recycled (children (host w)) w) (next_id (host w))
           (length items)
    /\ console (host w') = console (host w)
    /\ uncaught (host w') = uncaught (host w)
    /\ raf (host w') = []
    /\ settings (this w') = settings (this w)
    /\ templateHtml (this w') = templateHtml (this w)
    /\ this_container (this w') = this_container (this w)
    /\ (forall item j, markup_of sf (this w') item j
                       = markup_of sf (this w) item j)
    /\ (forall k item html sh inner,
          items !! k = Some item ->
          length (recycled (children (host w)) w) <= k ->
          markup_of sf (this w) item k = inr html ->
          parse (trim html) = Some (sh, inner) ->
          nodes (host w')
            !! (next_id (host w) + (k - length (recycled (children (host w)) w)))
          = Some {| shell := sh; innerHTML := inner; expando := ∅ |})
    /\ (reuseNodes (settings (this w)) = false ->
        forall id, id < next_id (host w) ->
          nodes (host w') !! id = nodes (host w) !! id).
Proof.
  intros Ht Hc Hbs Hraf Hnd Hold Hok.
  set (c := children (host w)) in *. set (n0 := next_id (host w)) in *.
  assert (Hcap : exists w1, capture w = (w1, None)
                 /\ host w1 = host w /\ settings (this w1) = settings (this w)
                 /\ templateHtml (this w1) = templateHtml (this w)
                 /\ this_container (this w1) = this_container (this w)
                 /\ (forall item j, markup_of sf (this w1) item j
                                    = markup_of sf (this w) item j)
                 /\ (reuseNodes (settings (this w)) = true ->
                     existingNodes (this w1) = c)).
  { unfold capture. destruct (reuseNodes (settings (this w))) eqn:Er.
    - rewrite Hc. eexists. split; [reflexivity|].
      destruct w as [h []]. simpl. auto 10.
    - exists w. repeat split; auto. discriminate. }
  destruct Hcap as (w1 & Hcap & Hh1 & Hs1 & Ht1 & Hc1 & Hmk1 & Hex1).
  assert (Hrec1 : recycled c w1 = recycled c w)
    by (unfold recycled; now rewrite Hs1).
  assert (Hinv : fill_inv c n0 w1 0 []).
  { unfold fill_inv, remaining, filled. rewrite Hh1, Hs1.
    split; [exact Hraf|]. split; [exact Hex1|].
    split; [destruct (reuseNodes (settings (this w))); reflexivity|].
    split; [subst n0; simpl; lia|reflexivity]. }
  destruct (fill_loop parse sf c n0 Hnd Hold items 0 [] w1 Hinv)
    as (wL & fragL & Hfor & HinvL & HsL & HcL & _ & HnewL & HoffL).
  { intros k item Hk. rewrite Hrec1.
    apply (renders_at_stable parse sf _ _ (this w) _ _ Hmk1).
    apply Hok. exact Hk. }
  simpl in Hfor, HinvL.
  assert (Hraf1 : raf (host w1) = []) by now rewrite Hh1.
  destruct (for_items_frame _ _ _ _ _ _ _ _ Hfor Hraf1)
    as (RL & CL & UL & _ & TL & _).
  destruct (commit_filled c n0 Hnd Hold (length items) fragL wL)
    as (wC & Hcom & HchC & HnC & _ & HthisC).
  { now rewrite HcL, Hc1. }
  { exact HinvL. }
  destruct (commit_frame _ _ _ _ _ Hcom RL) as (RC & CC & UC & _).
  assert (Hsp : single_pass parse sf items 0 [] w1 = (wC, None)).
  { unfold single_pass. change (drop 0 items) with items.
    rewrite Hfor. exact Hcom. }
  assert (Hru : render_unbatched parse sf items w = wC).
  { unfold render_unbatched.
    destruct (String.eqb_spec (templateHtml (this w)) ""); [contradiction|].
    rewrite Hcap, Hsp. reflexivity. }
  assert (Hrs : raises parse sf items w = None).
  { unfold raises. rewrite Hcap, Hsp. reflexivity. }
  destruct (render_run parse sf items w
              (batches_needed (length items) (batchSize (settings (this w))))
              Hbs Hraf) as (n & w' & Hrun & _ & _ & _ & Hclean); [lia|].
  destruct (Hclean Ht Hrs) as [Hn ->]. rewrite Hru in Hrun.
  exists n, wC. split; [exact Hrun|]. split; [exact Hn|].
  destruct HinvL as (_ & _ & _ & _ & HfragL).
  rewrite HthisC, HchC, HnC, CC, UC, CL, UL, Hh1, HsL, Hs1, TL, Ht1, HcL, Hc1.
  rewrite HfragL. unfold recycled at 1. rewrite HsL, Hs1.
  split; [reflexivity|]. split; [reflexivity|]. split; [reflexivity|].
  split; [exact RC|]. split; [reflexivity|]. split; [reflexivity|].
  split; [reflexivity|]. split.
  { intros item j.
    rewrite (for_items_markup_of _ _ _ _ _ _ _ _ Hfor). apply Hmk1. }
  split.
  - intros k item html sh inner Hk Hle Hm Hp.
    specialize (HnewL k item html sh inner Hk).
    rewrite Hrec1 in HnewL. simpl in HnewL.
    apply HnewL; [exact Hle| now rewrite Hmk1 |exact Hp].
  - intros Hoff id Hid. rewrite HoffL; [now rewrite Hh1|congruence|].
    rewrite Hh1. exact Hid.
Qed.

Lemma length_filled slots n0 n : length (filled slots n0 n) = n.
Proof. unfold filled. rewrite length_app, length_take, length_seq. lia. Qed.

(** X5.  A render all of whose items are completed puts one node per item in
    the container, in the order of the data: at the positions where a
    captured node is recycled that node, and after them new elements with
    consecutive fresh identities, each of them the first element of its
    item's trimmed markup; nothing is logged and nothing escapes. *)
Theorem completed_render_fills_container
    (parse : string -> option (string * string)) (sf : surface)
    (items : list Item) (w : World) :
  templateHtml (this w) <> "" -> this_container (this w) = true ->
  1 <= batchSize (settings (this w)) -> raf (host w) = [] ->
  NoDup (children (host w)) ->
  Forall (λ id, id < next_id (host w)) (children (host w)) ->
  (forall k item, items !! k = Some item ->
     renders_at parse sf (recycled (children (host w)) w) (this w) item k) ->
  exists n w',
    run_frames parse sf
      (batches_needed (length items) (batchSize (settings (this w))))
      (render parse sf (DArray items) w) = Some (n, w')
    /\ children (host w')
       = take (length items) (recycled (children (host w)) w)
         ++ seq (next_id (host w))
              (length items - length (recycled (children (host w)) w))
    /\ length (children (host w')) = length items
    /\ console (host w') = console (host w)
    /\ uncaught (host w') = uncaught (host w)
    /\ (forall k item html sh inner,
          items !! k = Some item ->
          length (recycled (children (host w)) w) <= k ->
          markup_of sf (this w) item k = inr html ->
          parse (trim html) = Some (sh, inner) ->
          nodes (host w')
            !! (next_id (host w) + (k - length (recycled (children (host w)) w)))
          = Some {| shell := sh; innerHTML := inner; expando := ∅ |}).
Proof.
  intros Ht Hc Hbs Hraf Hnd Hold Hok.
  destruct (render_completes parse sf items w Ht Hc Hbs Hraf Hnd Hold Hok)
    as (n & w' & Hrun & _ & Hch & Hco & Hun & _ & _ & _ & _ & _ & Hnew & _).
  exists n, w'. split; [exact Hrun|]. split; [exact Hch|].
  split; [rewrite Hch; apply length_filled|]. auto.
Qed.

Lemma abc_renders_at slots inst k item :
  renderCallback (settings inst) = None ->
  templateHtml inst = "<div>{{name}}</div>" ->
  compiledTemplate inst = None ->
  abc !! k = Some item ->
  renders_at sample_parser Class slots inst item k.
Proof.
  intros Hcb Ht Hct Hk. unfold renders_at, markup_of, template_in_use.
  rewrite Hcb, Ht, Hct.
  destruct k as [|[|[|k]]]; simpl in Hk; [| | |discriminate];
    injection Hk as <-; eexists; (split; [reflexivity|]);
    right; eexists; vm_compute; reflexivity.
Qed.

Lemma completed_render_fills_container_witness :
  exists n w',
    run_frames sample_parser Class
      (batches_needed (length abc) (batchSize (settings (this marked_world))))
      (render sample_parser Class (DArray abc) marked_world) = Some (n, w')
    /\ children (host w')
       = take (length abc) (recycled (children (host marked_world)) marked_world)
         ++ seq (next_id (host marked_world))
              (length abc
               - length (recycled (children (host marked_world)) marked_world))
    /\ length (children (host w')) = length abc
    /\ console (host w') = console (host marked_world)
    /\ uncaught (host w') = uncaught (host marked_world)
    /\ (forall k item html sh inner,
          abc !! k = Some item ->
          length (recycled (children (host marked_world)) marked_world) <= k ->
          markup_of Class (this marked_world) item k = inr html ->
          sample_parser (trim html) = Some (sh, inner) ->
          nodes (host w')
            !! (next_id (host marked_world)
                + (k - length (recycled (children (host marked_world))
                                 marked_world)))
          = Some {| shell := sh; innerHTML := inner; expando := ∅ |}).
Proof.
  apply (completed_render_fills_container sample_parser Class abc marked_world).
  - discriminate.
  - reflexivity.
  - simpl. lia.
  - reflexivity.
  - apply (bool_decide_unpack _). vm_compute. exact I.
  - apply (bool_decide_unpack _). vm_compute. exact I.
  - intros k item Hk. now apply abc_renders_at.
Defined.

(** Three items on a container of two elements: the two are recycled in
    place and a third element is created after them. *)
Example two_recycled_one_created :
  (λ r, (children (host (snd r)), innerHTML <$> nodes (host (snd r)) !! 2)) <$>
    run_frames sample_parser Class 1
      (render sample_parser Class (DArray abc) marked_world)
  = Some ([0; 1; 2], Some "C").
Proof. vm_compute. reflexivity. Qed.

(** X6.  With recycling off a completed render replaces the container's
    children by new elements only: the children are the fresh identities
    in order, no former child is among them, and every element that
    existed before is left in the store as it was. *)
Theorem without_recycling_children_are_new
    (parse : string -> option (string * string)) (sf : surface)
    (items : list Item) (w : World) :
  reuseNodes (settings (this w)) = false ->
  templateHtml (this w) <> "" -> this_container (this w) = true ->
  1 <= batchSize (settings (this w)) -> raf (host w) = [] ->
  NoDup (children (host w)) ->
  Forall (λ id, id < next_id (host w)) (children (host w)) ->
  (forall k item, items !! k = Some item ->
     exists html, markup_of sf (this w) item k = inr html
                  /\ is_Some (parse (trim html))) ->
  exists n w',
    run_frames parse sf
      (batches_needed (length items) (batchSize (settings (this w))))
      (render parse sf (DArray items) w) = Some (n, w')
    /\ children (host w') = seq (next_id (host w)) (length items)
    /\ (forall id, id ∈ children (host w) -> id ∉ children (host w'))
    /\ (forall id, id < next_id (host w) ->
          nodes (host w') !! id = nodes (host w) !! id).
Proof.
  intros Hoff Ht Hc Hbs Hraf Hnd Hold Hok.
  destruct (render_completes parse sf items w Ht Hc Hbs Hraf Hnd Hold)
    as (n & w' & Hrun & _ & Hch & _ & _ & _ & _ & _ & _ & _ & _ & Hkeep).
  { intros k item Hk. destruct (Hok k item Hk) as (html & Hm & Hp).
    exists html. auto. }
  unfold filled, recycled in Hch. rewrite Hoff in Hch.
  rewrite take_nil, Nat.sub_0_r in Hch. simpl in Hch.
  exists n, w'. split; [exact Hrun|]. split; [exact Hch|]. split.
  - intros id Hin. rewrite Hch. intros Hin'. apply elem_of_seq in Hin'.
    rewrite Forall_forall in Hold. specialize (Hold _ Hin). lia.
  - exact (Hkeep Hoff).
Qed.

Definition no_reuse_world : World :=
  with_settings (with_reuseNodes false) marked_world.

Lemma without_recycling_children_are_new_witness :
  exists n w',
    run_frames sample_parser Class
      (batches_needed (length abc) (batchSize (settings (this no_reuse_world))))
      (render sample_parser Class (DArray abc) no_reuse_world) = Some (n, w')
    /\ children (host w') = seq (next_id (host no_reuse_world)) (length abc)
    /\ (forall id, id ∈ children (host no_reuse_world) ->
          id ∉ children (host w'))
    /\ (forall id, id < next_id (host no_reuse_world) ->
          nodes (host w') !! id = nodes (host no_reuse_world) !! id).
Proof.
  apply (without_recycling_children_are_new sample_parser Class abc
           no_reuse_world).
  - reflexivity.
  - discriminate.
  - reflexivity.
  - simpl. lia.
  - reflexivity.
  - apply (bool_decide_unpack _). vm_compute. exact I.
  - apply (bool_decide_unpack _). vm_compute. exact I.
  - intros k item Hk.
    destruct (abc_renders_at [] (this no_reuse_world) k item
                eq_refl eq_refl eq_refl Hk) as (html & Hm & [Hlt|Hp]).
    + simpl in Hlt. lia.
    + exists html. auto.
Defined.

(** X7.  With recycling on and at least as many items as the container has
    children, a completed render keeps every child at its place and
    appends one new element for each further item. *)
Theorem recycling_keeps_and_appends
    (parse : string -> option (string * string)) (sf : surface)
    (items : list Item) (w : World) :
  reuseNodes (settings (this w)) = true ->
  length (children (host w)) <= length items ->
  templateHtml (this w) <> "" -> this_container (this w) = true ->
  1 <= batchSize (settings (this w)) -> raf (host w) = [] ->
  NoDup (children (host w)) ->
  Forall (λ id, id < next_id (host w)) (children (host w)) ->
  (forall k item, items !! k = Some item ->
     exists html, markup_of sf (this w) item k = inr html
                  /\ (k < length (children (host w))
                      \/ is_Some (parse (trim html)))) ->
  exists n w',
    run_frames parse sf
      (batches_needed (length items) (batchSize (settings (this w))))
      (render parse sf (DArray items) w) = Some (n, w')
    /\ children (host w')
       = children (host w)
         ++ seq (next_id (host w))
              (length items - length (children (host w))).
Proof.
  intros Hon Hlen Ht Hc Hbs Hraf Hnd Hold Hok.
  destruct (render_completes parse sf items w Ht Hc Hbs Hraf Hnd Hold)
    as (n & w' & Hrun & _ & Hch & _).
  { intros k item Hk. unfold renders_at, recycled. rewrite Hon.
    apply Hok. exact Hk. }
  unfold filled, recycled in Hch. rewrite Hon in Hch.
  rewrite take_ge in Hch by exact Hlen.
  exists n, w'. auto.
Qed.

Lemma recycling_keeps_and_appends_witness :
  exists n w',
    run_frames sample_parser Class
      (batches_needed (length abc) (batchSize (settings (this marked_world))))
      (render sample_parser Class (DArray abc) marked_world) = Some (n, w')
    /\ children (host w')
       = children (host marked_world)
         ++ seq (next_id (host marked_world))
              (length abc - length (children (host marked_world))).
Proof.
  apply (recycling_keeps_and_appends sample_parser Class abc marked_world).
  - reflexivity.
  - simpl. lia.
  - discriminate.
  - reflexivity.
  - simpl. lia.
  - reflexivity.
  - apply (bool_decide_unpack _). vm_compute. exact I.
  - apply (bool_decide_unpack _). vm_compute. exact I.
  - intros k item Hk.
    apply (abc_renders_at (children (host marked_world)) (this marked_world)
             k item eq_refl eq_refl eq_refl Hk).
Defined.

(** ** Rendering again *)

(** A render that recycles a captured node for every item. *)
Lemma recycle_completes parse sf items w :
  reuseNodes (settings (this w)) = true ->
  this_container (this w) = true ->
  templateHtml (this w) <> "" ->
  1 <= batchSize (settings (this w)) ->
  raf (host w) = [] ->
  NoDup (children (host w)) ->
  length items <= length (children (host w)) ->
  (forall k item, items !! k = Some item ->
     exists html, markup_of sf (this w) item k = inr html) ->
  exists n w',
    run_frames parse sf
      (batches_needed (length items) (batchSize (settings (this w))))
      (render parse sf (DArray items) w) = Some (n, w')
    /\ children (host w') = take (length items) (children (host w))
    /\ raf (host w') = []
    /\ settings (this w') = settings (this w)
    /\ templateHtml (this w') = templateHtml (this w)
    /\ this_container (this w') = this_container (this w)
    /\ (forall item j, markup_of sf (this w') item j
                       = markup_of sf (this w) item j)
    /\ (forall k id item html,
          items !! k = Some item -> children (host w) !! k = Some id ->
          markup_of sf (this w) item k = inr html ->
          nodes (host w') !! id
          = set_innerHTML (trim html) <$> nodes (host w) !! id)
    /\ (forall id, id ∉ take (length items) (children (host w)) ->
          nodes (host w') !! id = nodes (host w) !! id).
Proof.
  intros Hr Hc Ht Hbs Hraf Hnd Hlen Hok.
  set (c := children (host w)) in *.
  set (w1 := on_this (set_existingNodes c) w).
  assert (Hcap : capture w = (w1, None)).
  { unfold capture. rewrite Hr, Hc. reflexivity. }
  assert (Hmk : forall item k, markup_of sf (this w1) item k
                               = markup_of sf (this w) item k)
    by (destruct w as [? []]; reflexivity).
  destruct (reuse_loop parse sf c Hnd items 0 w1)
    as (wL & Hfor & HchL & Hset & Hkeep).
  { destruct w as [? []]; exact Hr. }
  { destruct w as [? []]; reflexivity. }
  { destruct w as [? []]; exact Hraf. }
  { destruct w as [? []]; reflexivity. }
  { simpl. lia. }
  { intros k item Hk. rewrite Hmk. apply Hok. exact Hk. }
  simpl in Hfor, HchL.
  assert (Hraf1 : raf (host w1) = []) by (destruct w as [? []]; exact Hraf).
  destruct (for_items_frame _ _ _ _ _ _ _ _ Hfor Hraf1)
    as (RL & _ & _ & SL & TL & KL & XL).
  destruct (commit_reuse c Hnd (length items) wL) as (wC & Hcom & HchC & HnC).
  { rewrite SL. destruct w as [? []]; exact Hr. }
  { rewrite KL. destruct w as [? []]; exact Hc. }
  { rewrite XL. destruct w as [? []]; reflexivity. }
  destruct (commit_frame _ _ _ _ _ Hcom RL) as (RC & _ & _ & HthisC).
  assert (Hsp : single_pass parse sf items 0 [] w1 = (wC, None)).
  { unfold single_pass. change (drop 0 items) with items.
    change (@nil NodeId) with (take 0 c) at 1. rewrite Hfor. exact Hcom. }
  assert (Hru : render_unbatched parse sf items w = wC).
  { unfold render_unbatched.
    destruct (String.eqb_spec (templateHtml (this w)) ""); [contradiction|].
    rewrite Hcap, Hsp. reflexivity. }
  assert (Hrs : raises parse sf items w = None).
  { unfold raises. rewrite Hcap, Hsp. reflexivity. }
  destruct (render_run parse sf items w
              (batches_needed (length items) (batchSize (settings (this w))))
              Hbs Hraf) as (n & w' & Hrun & _ & _ & _ & Hclean); [lia|].
  destruct (Hclean Ht Hrs) as [_ ->]. rewrite Hru in Hrun.
  exists n, wC. split; [exact Hrun|]. split; [exact HchC|].
  split; [exact RC|]. rewrite HthisC, SL, TL, KL.
  split; [destruct w as [? []]; reflexivity|].
  split; [destruct w as [? []]; reflexivity|].
  split; [destruct w as [? []]; reflexivity|].
  split.
  { intros item j. rewrite (for_items_markup_of _ _ _ _ _ _ _ _ Hfor).
    apply Hmk. }
  split.
  - intros k id item html Hk Hid Hm. rewrite HnC.
    rewrite (Hset k id item html Hk Hid) by (rewrite Hmk; exact Hm).
    destruct w as [? []]; reflexivity.
  - intros id Hnot. rewrite HnC, Hkeep by exact Hnot.
    destruct w as [? []]; reflexivity.
Qed.

Lemma set_innerHTML_twice m (o : option Element) :
  set_innerHTML m <$> (set_innerHTML m <$> o) = set_innerHTML m <$> o.
Proof. destruct o as [[]|]; reflexivity. Qed.

(** X8.  With recycling on, rendering the same items once more changes
    nothing: after a completed render that recycled a node for every
    item, a second render of the same data leaves the element store and
    the container's children exactly as the first left them. *)
Theorem rerender_changes_nothing
    (parse : string -> option (string * string)) (sf : surface)
    (items : list Item) (w : World) :
  reuseNodes (settings (this w)) = true ->
  this_container (this w) = true ->
  templateHtml (this w) <> "" ->
  1 <= batchSize (settings (this w)) ->
  raf (host w) = [] ->
  NoDup (children (host w)) ->
  length items <= length (children (host w)) ->
  (forall k item, items !! k = Some item ->
     exists html, markup_of sf (this w) item k = inr html) ->
  exists n1 w1 n2 w2,
    run_frames parse sf
      (batches_needed (length items) (batchSize (settings (this w))))
      (render parse sf (DArray items) w) = Some (n1, w1)
    /\ run_frames parse sf
         (batches_needed (length items) (batchSize (settings (this w))))
         (render parse sf (DArray items) w1) = Some (n2, w2)
    /\ nodes (host w2) = nodes (host w1)
    /\ children (host w2) = children (host w1).
Proof.
  intros Hr Hc Ht Hbs Hraf Hnd Hlen Hok.
  destruct (recycle_completes parse sf items w Hr Hc Ht Hbs Hraf Hnd Hlen Hok)
    as (n1 & w1 & Hrun1 & Hch1 & R1 & S1 & T1 & K1 & M1 & Hset1 & Hkeep1).
  destruct (recycle_completes parse sf items w1)
    as (n2 & w2 & Hrun2 & Hch2 & _ & _ & _ & _ & _ & Hset2 & Hkeep2).
  { now rewrite S1. }
  { now rewrite K1. }
  { now rewrite T1. }
  { now rewrite S1. }
  { exact R1. }
  { rewrite Hch1. pose proof Hnd as Hnd'.
    rewrite <- (take_drop (length items) (children (host w))) in Hnd'.
    now apply NoDup_app in Hnd' as [? _]. }
  { rewrite Hch1, length_take. lia. }
  { intros k item Hk. rewrite M1. apply Hok. exact Hk. }
  rewrite S1 in Hrun2.
  exists n1, w1, n2, w2. split; [exact Hrun1|]. split; [exact Hrun2|].
  split.
  - apply map_eq. intros id.
    destruct (decide (id ∈ take (length items) (children (host w))))
      as [Hin|Hnot].
    + apply elem_of_take in Hin as (k & Hid & Hk).
      destruct (lookup_lt_is_Some_2 items k Hk) as [item Hitem].
      destruct (Hok k item Hitem) as [html Hm].
      rewrite (Hset2 k id item html Hitem);
        [| rewrite Hch1, lookup_take_lt by exact Hk; exact Hid
         | rewrite M1; exact Hm].
      rewrite (Hset1 k id item html Hitem Hid Hm).
      apply set_innerHTML_twice.
    + apply Hkeep2. rewrite Hch1, take_take. 
      replace (length items `min` length items) with (length items) by lia.
      exact Hnot.
  - rewrite Hch2, Hch1, take_take. f_equal. lia.
Qed.

Lemma rerender_changes_nothing_witness :
  exists n1 w1 n2 w2,
    run_frames sample_parser Class
      (batches_needed (length [named "Z"])
         (batchSize (settings (this marked_world))))
      (render sample_parser Class (DArray [named "Z"]) marked_world)
    = Some (n1, w1)
    /\ run_frames sample_parser Class
         (batches_needed (length [named "Z"])
            (batchSize (settings (this marked_world))))
         (render sample_parser Class (DArray [named "Z"]) w1) = Some (n2, w2)
    /\ nodes (host w2) = nodes (host w1)
    /\ children (host w2) = children (host w1).
Proof.
  apply (rerender_changes_nothing sample_parser Class [named "Z"] marked_world).
  - reflexivity.
  - reflexivity.
  - discriminate.
  - simpl. lia.
  - reflexivity.
  - apply (bool_decide_unpack _). vm_compute. exact I.
  - simpl. lia.
  - intros k item _. unfold markup_of. simpl. eauto.
Defined.

(** The first render of an item and its render onto a recycled node do
    not give the same element: the first keeps the inner markup of the
    parsed element, the second makes the item's whole markup the inner
    markup of the recycled node. *)
Example first_render_and_rerender_differ :
  (λ r, innerHTML <$> nodes (host (snd r)) !! 0) <$>
    run_frames sample_parser Class 1
      (render sample_parser Class (DArray [named "A"]) sample_world)
  = Some (Some "A")
  /\ (r ← run_frames sample_parser Class 1
            (render sample_parser Class (DArray [named "A"]) sample_world);
      (λ r', innerHTML <$> nodes (host (snd r')) !! 0) <$>
        run_frames sample_parser Class 1
          (render sample_parser Class (DArray [named "A"]) (snd r)))
     = Some (Some "<div>A</div>").
Proof. split; vm_compute; reflexivity. Qed.

(** ** Batches that do not end, and errors after the first batch *)

(** X9.  With a batch size of zero a render of a non-empty array never
    completes: the first batch visits no item and schedules a frame, and
    every frame leaves the page exactly as it found it, with the same
    callback scheduled again; no amount of frames empties the queue. *)
Theorem zero_batch_size_never_completes
    (parse : string -> option (string * string)) (sf : surface)
    (items : list Item) (w : World) (fuel : nat) :
  batchSize (settings (this w)) = 0 -> items <> [] ->
  templateHtml (this w) <> "" -> raf (host w) = [] ->
  (reuseNodes (settings (this w)) = true -> this_container (this w) = true) ->
  run_frame parse sf (render parse sf (DArray items) w)
  = Some (render parse sf (DArray items) w)
  /\ children (host (render parse sf (DArray items) w)) = children (host w)
  /\ run_frames parse sf fuel (render parse sf (DArray items) w) = None.
Proof.
  intros Hbs Hne Ht Hraf Hcont.
  assert (Hc : exists w1, capture w = (w1, None) /\ host w1 = host w).
  { unfold capture. destruct (reuseNodes (settings (this w))).
    - rewrite (Hcont eq_refl). eexists. split; [reflexivity|].
      destruct w as [? []]. reflexivity.
    - eauto. }
  destruct Hc as (w1 & Hc & Hh).
  assert (Hraf1 : raf (host w1) = []) by now rewrite Hh.
  assert (Hlen : 0 < length items) by (destruct items; [contradiction|simpl; lia]).
  set (pb := {| pb_data := items; pb_batchSize := 0; pb_fragment := [];
                pb_start := 0 |}).
  assert (Hbatch : processBatch parse sf items 0 [] 0 w1
                   = (on_host (requestAnimationFrame pb) w1, None)).
  { unfold processBatch. simpl.
    destruct (Nat.ltb_spec 0 (length items)); [reflexivity|lia]. }
  assert (Hrender : render parse sf (DArray items) w
                    = on_host (requestAnimationFrame pb) w1).
  { unfold render.
    destruct (String.eqb_spec (templateHtml (this w)) ""); [contradiction|].
    rewrite Hc, Hbs, Hbatch. reflexivity. }
  rewrite Hrender.
  destruct (pop_requested pb w1 Hraf1) as [Hq Hpop].
  assert (Hframe : run_frame parse sf (on_host (requestAnimationFrame pb) w1)
                   = Some (on_host (requestAnimationFrame pb) w1)).
  { unfold run_frame. rewrite Hq.
    cbn [pb pb_data pb_batchSize pb_fragment pb_start].
    rewrite Hpop. fold pb. rewrite Hbatch. reflexivity. }
  split; [exact Hframe|]. split.
  - destruct w1 as [[] ?]. simpl in *. now rewrite <- Hh.
  - induction fuel as [|fuel IH]; simpl; rewrite Hframe; [reflexivity|].
    now rewrite IH.
Qed.

Lemma zero_batch_size_never_completes_witness :
  run_frame sample_parser Class
    (render sample_parser Class (DArray abc)
       (with_settings (with_batchSize 0) sample_world))
  = Some (render sample_parser Class (DArray abc)
            (with_settings (with_batchSize 0) sample_world))
  /\ children (host (render sample_parser Class (DArray abc)
                       (with_settings (with_batchSize 0) sample_world)))
     = children (host (with_settings (with_batchSize 0) sample_world))
  /\ run_frames sample_parser Class 1000
       (render sample_parser Class (DArray abc)
          (with_settings (with_batchSize 0) sample_world)) = None.
Proof.
  apply (zero_batch_size_never_completes sample_parser Class abc
           (with_settings (with_batchSize 0) sample_world) 1000);
    [reflexivity | discriminate | discriminate | reflexivity | reflexivity].
Defined.

(** X10.  An item that raises after the first batch raises inside an
    animation-frame callback, where nothing catches it: the exception
    reaches the host, nothing is logged, no swap takes place, and with
    recycling on the container has lost the captured nodes at the
    positions completed before the failure. *)
Theorem later_batch_error_escapes
    (parse : string -> option (string * string)) (sf : surface)
    (items : list Item) (w w2 wf : World) (frag2 : list NodeId) (e : exn) :
  templateHtml (this w) <> "" ->
  raf (host w) = [] ->
  1 <= batchSize (settings (this w)) ->
  NoDup (children (host w)) ->
  Forall (λ id, id < next_id (host w)) (children (host w)) ->
  (reuseNodes (settings (this w)) = true -> this_container (this w) = true) ->
  for_items parse sf 0 (take (batchSize (settings (this w))) items) []
    (fst (capture w)) = (w2, inr frag2) ->
  for_items parse sf 0 items [] (fst (capture w)) = (wf, inl e) ->
  exists n w',
    run_frames parse sf
      (batches_needed (length items) (batchSize (settings (this w))))
      (render parse sf (DArray items) w) = Some (n, w')
    /\ 1 <= n
    /\ w' = on_host (report_uncaught e) wf
    /\ console (host w') = console (host w)
    /\ uncaught (host w') = uncaught (host w) ++ [e]
    /\ children (host w')
       = (if reuseNodes (settings (this w))
          then drop (completed parse sf 0 items [] (fst (capture w)))
                 (children (host w))
          else children (host w)).
Proof.
  intros Ht Hraf Hbs Hnd Hfresh Hcont Hfirst Hall.
  assert (Hc : exists w1, capture w = (w1, None)
                 /\ host w1 = host w /\ settings (this w1) = settings (this w)
                 /\ (reuseNodes (settings (this w)) = true ->
                     existingNodes (this w1) = children (host w))).
  { unfold capture. destruct (reuseNodes (settings (this w))) eqn:Er.
    - rewrite (Hcont eq_refl). eexists. split; [reflexivity|].
      destruct w as [h []]. simpl. auto 10.
    - exists w. repeat split; auto. discriminate. }
  destruct Hc as (w1 & Hc & Hh & Hs & Hex).
  rewrite Hc in Hfirst, Hall. simpl in Hfirst, Hall.
  set (bs := batchSize (settings (this w))) in *.
  assert (Hraf1 : raf (host w1) = []) by now rewrite Hh.
  assert (Hlt : bs < length items).
  { destruct (Nat.lt_ge_cases bs (length items)) as [H|H]; [exact H|].
    rewrite take_ge in Hfirst by exact H. congruence. }
  destruct (for_items_frame _ _ _ _ _ _ _ _ Hfirst Hraf1) as (R2 & _).
  assert (Hrender : render parse sf (DArray items) w
                    = on_host (requestAnimationFrame
                        {| pb_data := items; pb_batchSize := bs;
                           pb_fragment := frag2; pb_start := bs |}) w2).
  { unfold render, processBatch.
    destruct (String.eqb_spec (templateHtml (this w)) ""); [contradiction|].
    rewrite Hc. fold bs. change (drop 0 items) with items.
    rewrite Nat.add_0_l, Nat.sub_0_r, take_min, Hfirst.
    rewrite (Nat.min_l bs (length items)) by lia.
    destruct (Nat.ltb_spec bs (length items)); [reflexivity|lia]. }
  assert (Hsp : single_pass parse sf items bs frag2 w2 = (wf, Some e)).
  { unfold single_pass.
    rewrite <- (take_drop bs items) in Hall at 1.
    rewrite for_items_app, Hfirst in Hall.
    rewrite length_take, Nat.min_l in Hall by lia. simpl in Hall.
    rewrite Hall. reflexivity. }
  assert (Hnb : batches_needed (length items) bs
                = S (ceil_div (length items - bs) bs)).
  { unfold batches_needed. destruct (Nat.eqb_spec (length items) 0); [lia|].
    apply ceil_div_step; lia. }
  destruct (frames_finish parse sf items bs (batches_needed (length items) bs)
              bs frag2 w2 Hbs Hlt R2) as (n & w' & Hrun & Hn & _ & Hres);
    [lia|].
  rewrite Hsp in Hres. subst w'.
  exists n, (on_host (report_uncaught e) wf). rewrite Hrender.
  split; [exact Hrun|]. split; [lia|]. split; [reflexivity|].
  destruct (for_items_frame _ _ _ _ _ _ _ _ Hall Hraf1)
    as (_ & C & U & _).
  assert (Hinv : loop_inv (children (host w)) w1 0).
  { unfold loop_inv, remaining. rewrite Hh, Hs.
    split; [exact Hraf|]. split; [exact Hfresh|]. split; [exact Hex|].
    destruct (reuseNodes (settings (this w))); reflexivity. }
  pose proof (for_items_children parse sf _ Hnd _ _ _ _ _ _ Hall Hinv) as Hch.
  destruct wf as [[] ?]. simpl in *.
  rewrite C, U, Hh, Hch, Hc. unfold remaining. rewrite Hs. auto.
Qed.

Lemma later_batch_error_escapes_witness :
  exists n w',
    run_frames sample_parser Class
      (batches_needed (length abc)
         (batchSize (settings
            (this (with_settings (with_batchSize 1) throwing_world)))))
      (render sample_parser Class (DArray abc)
         (with_settings (with_batchSize 1) throwing_world)) = Some (n, w')
    /\ 1 <= n
    /\ w' = on_host (report_uncaught (Error "boom"))
              (fst (for_items sample_parser Class 0 abc []
                      (fst (capture
                              (with_settings (with_batchSize 1) throwing_world)))))
    /\ console (host w')
       = console (host (with_settings (with_batchSize 1) throwing_world))
    /\ uncaught (host w')
       = uncaught (host (with_settings (with_batchSize 1) throwing_world))
         ++ [Error "boom"]
    /\ children (host w')
       = (if reuseNodes (settings
               (this (with_settings (with_batchSize 1) throwing_world)))
          then drop (completed sample_parser Class 0 abc []
                       (fst (capture
                               (with_settings (with_batchSize 1) throwing_world))))
                 (children (host (with_settings (with_batchSize 1) throwing_world)))
          else children (host (with_settings (with_batchSize 1) throwing_world))).
Proof.
  apply (later_batch_error_escapes sample_parser Class abc
           (with_settings (with_batchSize 1) throwing_world)
           (fst (for_items sample_parser Class 0 (take 1 abc) []
                   (fst (capture
                           (with_settings (with_batchSize 1) throwing_world)))))
           (fst (for_items sample_parser Class 0 abc []
                   (fst (capture
                           (with_settings (with_batchSize 1) throwing_world)))))
           [0] (Error "boom")).
  - discriminate.
  - reflexivity.
  - simpl. lia.
  - apply (bool_decide_unpack _). vm_compute. exact I.
  - apply (bool_decide_unpack _). vm_compute. exact I.
  - reflexivity.
  - vm_compute. reflexivity.
  - vm_compute. reflexivity.
Defined.

(** ** Data that is no array, and a container that was not found *)

Lemma foldl_detach_console l : forall h,
  console (foldl (λ h id, detach id h) h l) = console h.
Proof.
  induction l as [|x l IH]; intros h; simpl; [reflexivity|]. now rewrite IH.
Qed.

(** X11.  [updateData] makes no check of its argument, whatever [validateData]
    says.  Given a value without a [length], such as a number or a plain
    object, it empties the container without a word; given [null] or
    [undefined] it logs the TypeError of reading [length] and leaves the
    element store and the container as they were.  Either way the value
    becomes the stored data. *)
Theorem update_with_non_array
    (parse : string -> option (string * string)) (sf : surface) (w : World) :
  templateHtml (this w) <> "" -> this_container (this w) = true ->
  children (host (updateData parse sf DNoLength w)) = []
  /\ console (host (updateData parse sf DNoLength w)) = console (host w)
  /\ data (settings (this (updateData parse sf DNoLength w))) = DNoLength
  /\ children (host (updateData parse sf DNullish w)) = children (host w)
  /\ nodes (host (updateData parse sf DNullish w)) = nodes (host w)
  /\ console (host (updateData parse sf DNullish w))
     = console (host w)
       ++ [RenderError (TypeError "Cannot read properties (reading 'length')")]
  /\ data (settings (this (updateData parse sf DNullish w))) = DNullish.
Proof.
  intros Ht Hc. unfold updateData, render.
  destruct w as [h [st tc t ct ex]]. destruct st as [co da te rc va ba ru].
  simpl in *. subst tc.
  destruct (String.eqb_spec t ""); [contradiction|].
  unfold capture, commit. simpl.
  destruct ru; simpl; rewrite ?foldl_detach_console; repeat split.
Qed.

Lemma update_with_non_array_witness :
  children (host (updateData sample_parser Class DNoLength marked_world)) = []
  /\ console (host (updateData sample_parser Class DNoLength marked_world))
     = console (host marked_world)
  /\ data (settings (this (updateData sample_parser Class DNoLength marked_world)))
     = DNoLength
  /\ children (host (updateData sample_parser Class DNullish marked_world))
     = children (host marked_world)
  /\ nodes (host (updateData sample_parser Class DNullish marked_world))
     = nodes (host marked_world)
  /\ console (host (updateData sample_parser Class DNullish marked_world))
     = console (host marked_world)
       ++ [RenderError (TypeError "Cannot read properties (reading 'length')")]
  /\ data (settings (this (updateData sample_parser Class DNullish marked_world)))
     = DNullish.
Proof.
  apply (update_with_non_array sample_parser Class marked_world);
    [discriminate | reflexivity].
Defined.

(** X12.  When the container option is a selector that matches nothing, the
    class's constructor does not throw: it returns an instance whose
    container is [null].  With recycling on, the first render and every
    later update of such an instance only log the TypeError of reading
    [children] of [null]; nothing is rendered and nothing else on the page
    changes. *)
Theorem missing_container_only_logs
    (parse : string -> option (string * string)) (options : Settings)
    (h : Host) (t : string) (d : jsdata) :
  container options = CSelector false ->
  rejected options = None ->
  template options = TString t \/ template options = TElement t ->
  t <> "" -> reuseNodes options = true ->
  FastLoop.constructor parse options h
  = (console_error
       (RenderError (TypeError "Cannot read properties of null")) h,
     inr {| settings := options; this_container := false; templateHtml := t;
            compiledTemplate := None; existingNodes := [] |})
  /\ (forall w, this w = {| settings := options; this_container := false;
                            templateHtml := t; compiledTemplate := None;
                            existingNodes := [] |} ->
        host (FastLoop.updateData parse d w)
        = console_error
            (RenderError (TypeError "Cannot read properties of null"))
            (host w)).
Proof.
  intros Hcont Hrej Htpl Ht Hr.
  assert (Hv : validateData options && negb (isArray (data options)) = false).
  { unfold rejected in Hrej.
    destruct (validateData options && negb (isArray (data options)));
      [discriminate|reflexivity]. }
  split.
  - unfold FastLoop.constructor, FastLoop.init. rewrite Hcont, Hv.
    unfold FastLoop.render, render, capture.
    destruct Htpl as [-> | ->]; simpl;
      destruct (String.eqb_spec t ""); try contradiction;
      rewrite Hr; reflexivity.
  - intros w Hw. unfold FastLoop.updateData, updateData, render, capture.
    destruct w as [h0 i0]. simpl in Hw. subst i0. simpl.
    destruct (String.eqb_spec t ""); [contradiction|].
    destruct options; simpl in *. rewrite Hr. reflexivity.
Qed.

Lemma missing_container_only_logs_witness :
  FastLoop.constructor sample_parser
    {| container := CSelector false; data := DArray abc;
       template := TString "<div>{{name}}</div>"; renderCallback := None;
       validateData := true; batchSize := 1000; reuseNodes := true |}
    two_node_page
  = (console_error
       (RenderError (TypeError "Cannot read properties of null"))
       two_node_page,
     inr {| settings :=
              {| container := CSelector false; data := DArray abc;
                 template := TString "<div>{{name}}</div>";
                 renderCallback := None; validateData := true;
                 batchSize := 1000; reuseNodes := true |};
            this_container := false;
            templateHtml := "<div>{{name}}</div>";
            compiledTemplate := None; existingNodes := [] |})
  /\ (forall w,
        this w = {| settings :=
                      {| container := CSelector false; data := DArray abc;
                         template := TString "<div>{{name}}</div>";
                         renderCallback := None; validateData := true;
                         batchSize := 1000; reuseNodes := true |};
                    this_container := false;
                    templateHtml := "<div>{{name}}</div>";
                    compiledTemplate := None; existingNodes := [] |} ->
        host (FastLoop.updateData sample_parser (DArray [named "Z"]) w)
        = console_error
            (RenderError (TypeError "Cannot read properties of null"))
            (host w)).
Proof.
  apply (missing_container_only_logs sample_parser
           {| container := CSelector false; data := DArray abc;
              template := TString "<div>{{name}}</div>";
              renderCallback := None; validateData := true;
              batchSize := 1000; reuseNodes := true |}
           two_node_page "<div>{{name}}</div>" (DArray [named "Z"]));
    [reflexivity | reflexivity | left; reflexivity | discriminate
    | reflexivity].
Defined.

(** ** The event registry *)

Lemma listeners_of_on name cb (m : Listeners) name' :
  listeners_of (on name cb m) name'
  = if decide (name = name') then set_add cb (listeners_of m name)
    else listeners_of m name'.
Proof.
  unfold listeners_of, on.
  destruct (decide (name = name')) as [<-|Hne].
  - rewrite lookup_alter_eq.
    destruct (m !! name) as [l|] eqn:E.
    + rewrite E. reflexivity.
    + rewrite lookup_insert_eq. reflexivity.
  - rewrite lookup_alter_ne by exact Hne.
    destruct (m !! name); [reflexivity|].
    now rewrite lookup_insert_ne.
Qed.

Lemma listeners_of_off name cb (m : Listeners) name' :
  listeners_of (off name cb m) name'
  = if decide (name = name') then set_delete cb (listeners_of m name)
    else listeners_of m name'.
Proof.
  unfold listeners_of, off.
  destruct (decide (name = name')) as [<-|Hne].
  - destruct (m !! name) as [l|] eqn:E.
    + rewrite lookup_alter_eq, E. reflexivity.
    + rewrite E. reflexivity.
  - destruct (m !! name); [|reflexivity].
    now rewrite lookup_alter_ne.
Qed.

Lemma emit_listeners_of {State Payload : Type}
    (call : HandlerId -> Payload -> State -> State * option exn)
    name d (m : Listeners) s :
  emit State Payload call name d m s
  = invoke_all State Payload call (listeners_of m name) d s.
Proof. unfold emit, listeners_of. destruct (m !! name); reflexivity. Qed.

Lemma invoke_all_app {State Payload : Type}
    (call : HandlerId -> Payload -> State -> State * option exn) l1 :
  forall l2 d s,
    invoke_all State Payload call (l1 ++ l2) d s
    = match invoke_all State Payload call l1 d s with
      | (s1, None) => invoke_all State Payload call l2 d s1
      | (s1, Some e) => (s1, Some e)
      end.
Proof.
  induction l1 as [|cb l1 IH]; intros l2 d s; simpl; [reflexivity|].
  destruct (call cb d s) as [s1 [e|]]; [reflexivity|apply IH].
Qed.

Lemma set_add_twice cb l : set_add cb (set_add cb l) = set_add cb l.
Proof.
  unfold set_add. destruct (decide (cb ∈ l)) as [Hin|Hnot].
  - now rewrite decide_True.
  - rewrite decide_True; [reflexivity|]. set_solver.
Qed.

(** X13.  Registering a handler that is already registered for the event
    changes nothing: the registry after the second [on] is the registry
    after the first, so [emit] calls the handler once. *)
Theorem on_twice_is_on_once (eventName : string) (callback : HandlerId)
    (m : Listeners) :
  on eventName callback (on eventName callback m) = on eventName callback m.
Proof.
  apply map_eq. intros name.
  unfold on at 1.
  assert (Hsome : is_Some (on eventName callback m !! eventName)).
  { unfold on. rewrite lookup_alter_eq.
    destruct (m !! eventName) as [l|] eqn:E.
    - rewrite E. eauto.
    - rewrite lookup_insert_eq. eauto. }
  destruct Hsome as [l Hl]. rewrite Hl.
  destruct (decide (eventName = name)) as [<-|Hne].
  - rewrite lookup_alter_eq, Hl. simpl. f_equal.
    assert (Hlo : l = set_add callback (listeners_of m eventName)).
    { pose proof (listeners_of_on eventName callback m eventName) as H.
      unfold listeners_of at 1 in H. rewrite Hl in H. simpl in H.
      now rewrite decide_True in H. }
    rewrite Hlo. apply set_add_twice.
  - now rewrite lookup_alter_ne.
Qed.

(** X14.  A handler that was not registered for the event, once registered and
    removed again, leaves every event with the handlers it had, in the
    same order: [emit] behaves as before for every event, payload and
    state. *)
Theorem off_undoes_on {State Payload : Type}
    (call : HandlerId -> Payload -> State -> State * option exn)
    (eventName : string) (callback : HandlerId) (m : Listeners)
    (name : string) (d : Payload) (s : State) :
  callback ∉ listeners_of m eventName ->
  listeners_of (off eventName callback (on eventName callback m)) name
  = listeners_of m name
  /\ emit State Payload call name d
       (off eventName callback (on eventName callback m)) s
     = emit State Payload call name d m s.
Proof.
  intros Hnot.
  assert (H : listeners_of (off eventName callback (on eventName callback m))
                name = listeners_of m name).
  { rewrite listeners_of_off.
    destruct (decide (eventName = name)) as [<-|Hne].
    - rewrite listeners_of_on, decide_True by reflexivity.
      unfold set_add, set_delete. rewrite decide_False by exact Hnot.
      rewrite filter_app. simpl. rewrite filter_cons.
      rewrite decide_False by tauto. simpl. rewrite app_nil_r.
      now apply without_fresh.
    - rewrite listeners_of_on. now rewrite decide_False. }
  split; [exact H|]. rewrite !emit_listeners_of. now rewrite H.
Qed.

Lemma off_undoes_on_witness :
  listeners_of (off "dataUpdated" 7 (on "dataUpdated" 7 {[ "dataUpdated" := [3] ]}))
    "dataUpdated"
  = listeners_of {[ "dataUpdated" := [3] ]} "dataUpdated"
  /\ emit nat unit (λ cb _ s, (s + cb, None)) "dataUpdated" tt
       (off "dataUpdated" 7 (on "dataUpdated" 7 {[ "dataUpdated" := [3] ]})) 0
     = emit nat unit (λ cb _ s, (s + cb, None)) "dataUpdated" tt
         {[ "dataUpdated" := [3] ]} 0.
Proof.
  apply (off_undoes_on (λ cb (_ : unit) s, (s + cb, None)) "dataUpdated" 7
           {[ "dataUpdated" := [3] ]} "dataUpdated" tt 0).
  unfold listeners_of. rewrite lookup_singleton_eq. simpl.
  apply (bool_decide_unpack _). vm_compute. exact I.
Defined.

(** X15.  A newly registered handler is called last: [emit] first calls the
    handlers the event had, in their order, and then the new one, unless
    one of the earlier handlers throws, in which case the exception
    leaves [emit] and the new handler is not called.  Other events are
    not affected by the registration. *)
Theorem emit_calls_new_handler_last {State Payload : Type}
    (call : HandlerId -> Payload -> State -> State * option exn)
    (eventName : string) (callback : HandlerId) (m : Listeners)
    (other : string) (d : Payload) (s : State) :
  callback ∉ listeners_of m eventName -> other <> eventName ->
  emit State Payload call eventName d (on eventName callback m) s
  = match emit State Payload call eventName d m s with
    | (s1, None) => call callback d s1
    | (s1, Some e) => (s1, Some e)
    end
  /\ emit State Payload call other d (on eventName callback m) s
     = emit State Payload call other d m s.
Proof.
  intros Hnot Hother. rewrite !emit_listeners_of. split.
  - rewrite listeners_of_on, decide_True by reflexivity.
    unfold set_add. rewrite decide_False by exact Hnot.
    rewrite invoke_all_app.
    destruct (invoke_all State Payload call (listeners_of m eventName) d s)
      as [s1 [e|]]; [reflexivity|].
    simpl. destruct (call callback d s1) as [s2 [e|]]; reflexivity.
  - rewrite listeners_of_on. rewrite decide_False by congruence. reflexivity.
Qed.

Lemma emit_calls_new_handler_last_witness :
  emit (list nat) unit
    (λ cb _ s, (s ++ [cb], if Nat.eqb cb 3 then Some (Error "boom") else None))
    "dataUpdated" tt (on "dataUpdated" 7 {[ "dataUpdated" := [3] ]}) []
  = match emit (list nat) unit
            (λ cb _ s, (s ++ [cb],
                        if Nat.eqb cb 3 then Some (Error "boom") else None))
            "dataUpdated" tt {[ "dataUpdated" := [3] ]} [] with
    | (s1, None) =>
        (λ cb (_ : unit) s, (s ++ [cb],
                  if Nat.eqb cb 3 then Some (Error "boom") else None)) 7 tt s1
    | (s1, Some e) => (s1, Some e)
    end
  /\ emit (list nat) unit
       (λ cb _ s, (s ++ [cb], if Nat.eqb cb 3 then Some (Error "boom") else None))
       "other" tt (on "dataUpdated" 7 {[ "dataUpdated" := [3] ]}) []
     = emit (list nat) unit
         (λ cb _ s, (s ++ [cb],
                     if Nat.eqb cb 3 then Some (Error "boom") else None))
         "other" tt {[ "dataUpdated" := [3] ]} [].
Proof.
  apply (emit_calls_new_handler_last
           (λ cb (_ : unit) (s : list nat),
              (s ++ [cb], if Nat.eqb cb 3 then Some (Error "boom") else None))
           "dataUpdated" 7 {[ "dataUpdated" := [3] ]} "other" tt []).
  - unfold listeners_of. rewrite lookup_singleton_eq. simpl.
    apply (bool_decide_unpack _). vm_compute. exact I.
  - discriminate.
Defined.

(** A throwing handler is not isolated: the handlers registered after it
    are not called. *)
Example throwing_handler_stops_emit :
  emit (list nat) unit
    (λ cb _ s, (s ++ [cb], if Nat.eqb cb 3 then Some (Error "boom") else None))
    "dataUpdated" tt (on "dataUpdated" 7 (on "dataUpdated" 3 ∅)) []
  = ([3], Some (Error "boom")).
Proof. vm_compute. reflexivity. Qed.

(** The lists stand for sets: [on] and [off] keep every list of the
    registry free of duplicates. *)
Lemma on_off_keep_sets (eventName : string) (callback : HandlerId)
    (m : Listeners) :
  (forall name, NoDup (listeners_of m name)) ->
  forall name,
    NoDup (listeners_of (on eventName callback m) name)
    /\ NoDup (listeners_of (off eventName callback m) name).
Proof.
  intros Hm name. rewrite listeners_of_on, listeners_of_off.
  destruct (decide (eventName = name)) as [<-|]; [|auto].
  split.
  - unfold set_add. destruct (decide (callback ∈ listeners_of m eventName));
      [apply Hm|].
    apply NoDup_app. split; [apply Hm|]. split; [|apply NoDup_singleton].
    intros x Hx Hx'. apply list_elem_of_singleton in Hx'. congruence.
  - apply NoDup_filter, Hm.
Qed.

(** ** The two surfaces on the same data *)

Lemma plain_item_substitute tpl item i :
  plain_item item ->
  default_substitute Class tpl item i = default_substitute Plugin tpl item i.
Proof.
  intros Hitem. unfold default_substitute.
  apply replace_placeholders_ext. intros key.
  unfold replacer, nullish_coalesce, logical_or, get.
  destruct (String.eqb key "index"); [reflexivity|].
  destruct (item !! key) as [v|] eqn:E; [|reflexivity].
  specialize (Hitem key v E).
  destruct v as [| |[]|z| |s]; simpl in *; try reflexivity; try discriminate.
  - destruct (Z.eqb z 0); [discriminate|reflexivity].
  - destruct (String.eqb_spec s ""); [now subst|reflexivity].
Qed.

Section Surfaces.
Variable parse : string -> option (string * string).

Lemma process_item_surface i item frag w :
  plain_item item ->
  process_item parse Class i item frag w
  = process_item parse Plugin i item frag w.
Proof.
  intros Hitem. unfold process_item, produce_html.
  destruct (renderCallback (settings (this w))); [reflexivity|].
  destruct (compiledTemplate
              (this (if falsy_string (compiledTemplate (this w))
                     then on_this (set_compiledTemplate
                                     (Some (templateHtml (this w)))) w
                     else w))); [|reflexivity].
  now rewrite plain_item_substitute.
Qed.

Lemma for_items_surface items : forall i frag w,
  Forall plain_item items ->
  for_items parse Class i items frag w = for_items parse Plugin i items frag w.
Proof.
  induction items as [|item rest IH]; intros i frag w Hall; [reflexivity|].
  apply Forall_cons in Hall as [Hitem Hrest]. simpl.
  rewrite (process_item_surface _ _ _ _ Hitem).
  destruct (process_item parse Plugin i item frag w) as [w1 [e|frag1]];
    [reflexivity|]. now apply IH.
Qed.

Lemma processBatch_surface items bs frag start w :
  Forall plain_item items ->
  processBatch parse Class items bs frag start w
  = processBatch parse Plugin items bs frag start w.
Proof.
  intros Hall. unfold processBatch.
  rewrite for_items_surface; [reflexivity|].
  apply Forall_take, Forall_drop, Hall.
Qed.

(** What one item, the swap and a batch do to the queue of frames: they
    take nodes out of waiting fragments and may add the next batch of the
    same data. *)
Lemma plain_queue_detach id h t :
  plain_queue {| host := h; this := t |} ->
  plain_queue {| host := detach id h; this := t |}.
Proof.
  unfold plain_queue. simpl. intros H.
  apply Forall_fmap. eapply Forall_impl; [exact H|]. auto.
Qed.

Lemma process_item_plain_queue sf i item frag w :
  plain_queue w -> plain_queue (fst (process_item parse sf i item frag w)).
Proof.
  intros H. unfold process_item.
  destruct (produce_html sf item i w) as [w0 r] eqn:Ep.
  destruct (produce_html_spec sf _ _ _ _ _ Ep) as (_ & Hh & _).
  assert (H0 : plain_queue w0) by (unfold plain_queue; now rewrite Hh).
  destruct r as [e|html]; [exact H0|].
  destruct (if reuseNodes (settings (this w0))
            then existingNodes (this w0) !! i else None) as [el|].
  - destruct w0 as [h0 t0]. apply plain_queue_detach. exact H0.
  - destruct (parse (trim html)) as [[sh inner]|]; [|exact H0].
    destruct w0 as [h0 t0]. simpl. apply plain_queue_detach. exact H0.
Qed.

Lemma for_items_plain_queue sf items : forall i frag w,
  plain_queue w -> plain_queue (fst (for_items parse sf i items frag w)).
Proof.
  induction items as [|item rest IH]; intros i frag w H; [exact H|]. simpl.
  pose proof (process_item_plain_queue sf i item frag w H) as H1.
  destruct (process_item parse sf i item frag w) as [w1 [e|frag1]];
    [exact H1|]. apply IH. exact H1.
Qed.

Lemma commit_plain_queue n frag w :
  plain_queue w -> plain_queue (fst (commit n frag w)).
Proof.
  intros H. unfold commit.
  assert (Hfold : forall l h t, plain_queue {| host := h; this := t |} ->
            plain_queue
              {| host := foldl (λ h id, detach id h) h l; this := t |}).
  { induction l as [|x l IH]; intros h t Hq; [exact Hq|]. simpl.
    apply IH. now apply plain_queue_detach. }
  destruct w as [h t]. simpl.
  destruct (this_container t); simpl; apply Hfold; exact H.
Qed.

Lemma processBatch_plain_queue sf items bs frag start w :
  Forall plain_item items -> plain_queue w ->
  plain_queue (fst (processBatch parse sf items bs frag start w)).
Proof.
  intros Hall H. unfold processBatch.
  pose proof (for_items_plain_queue sf
                (take (Nat.min (start + bs) (length items) - start)
                   (drop start items)) start frag w H) as H1.
  destruct (for_items parse sf start _ frag w) as [w1 [e|frag1]];
    [exact H1|].
  destruct (Nat.ltb _ _).
  - destruct w1 as [h1 t1]. unfold plain_queue in *. simpl in *.
    apply Forall_app. split; [exact H1|]. apply Forall_singleton. exact Hall.
  - now apply commit_plain_queue.
Qed.

Lemma run_frame_surface w :
  plain_queue w -> run_frame parse Class w = run_frame parse Plugin w.
Proof.
  unfold plain_queue, run_frame. destruct (raf (host w)) as [|pb q]; [reflexivity|].
  intros H. apply Forall_cons in H as [Hpb _].
  now rewrite processBatch_surface.
Qed.

Lemma run_frame_plain_queue sf w w1 :
  plain_queue w -> run_frame parse sf w = Some w1 -> plain_queue w1.
Proof.
  unfold run_frame. intros H.
  destruct (raf (host w)) as [|pb q] eqn:Eq; [discriminate|].
  unfold plain_queue in H. rewrite Eq in H. apply Forall_cons in H as [Hpb Hq].
  assert (H0 : plain_queue (on_host (set_raf q) w))
    by (destruct w as [[] ?]; exact Hq).
  pose proof (processBatch_plain_queue sf (pb_data pb) (pb_batchSize pb)
                (pb_fragment pb) (pb_start pb) _ Hpb H0) as H1.
  destruct (processBatch parse sf _ _ _ _ _) as [w2 [e|]];
    intros [= <-]; [destruct w2 as [[] ?]|]; exact H1.
Qed.

Lemma run_frames_surface fuel : forall w,
  plain_queue w -> run_frames parse Class fuel w = run_frames parse Plugin fuel w.
Proof.
  induction fuel as [|fuel IH]; intros w H; simpl;
    rewrite (run_frame_surface w H);
    destruct (run_frame parse Plugin w) as [w1|] eqn:E; try reflexivity.
  rewrite IH; [reflexivity|]. exact (run_frame_plain_queue Plugin w w1 H E).
Qed.

End Surfaces.

(** X16.  On items none of whose values is [false], [0] or [NaN] the class and
    the plugin render alike: from the same world the two renders give the
    same world, and so do the frames that follow, however many are run. *)
Theorem surfaces_render_alike
    (parse : string -> option (string * string)) (items : list Item)
    (w : World) (fuel : nat) :
  Forall plain_item items -> raf (host w) = [] ->
  render parse Class (DArray items) w = render parse Plugin (DArray items) w
  /\ run_frames parse Class fuel (render parse Class (DArray items) w)
     = run_frames parse Plugin fuel (render parse Plugin (DArray items) w).
Proof.
  intros Hall Hraf.
  assert (Hr : render parse Class (DArray items) w
               = render parse Plugin (DArray items) w).
  { unfold render. destruct (String.eqb _ _); [reflexivity|].
    destruct (capture w) as [w1 [e|]]; [reflexivity|].
    now rewrite processBatch_surface. }
  split; [exact Hr|]. rewrite Hr. apply run_frames_surface.
  unfold render. destruct (String.eqb _ _).
  { unfold plain_queue. rewrite Hraf. constructor. }
  destruct (capture w) as [w1 [e|]] eqn:Ec;
    destruct (capture_frame _ _ _ Ec) as [Hh _].
  { unfold plain_queue. destruct w1 as [[] ?]. simpl in *.
    rewrite <- Hh in Hraf. simpl in Hraf. rewrite Hraf. constructor. }
  assert (H1 : plain_queue w1)
    by (unfold plain_queue; rewrite Hh, Hraf; constructor).
  pose proof (processBatch_plain_queue parse Plugin items
                (batchSize (settings (this w))) [] 0 w1 Hall H1) as H2.
  destruct (processBatch parse Plugin items _ [] 0 w1) as [w2 [e|]];
    [destruct w2 as [[] ?]|]; exact H2.
Qed.

Lemma surfaces_render_alike_witness :
  render sample_parser Class (DArray abc)
    (with_settings (with_batchSize 2) sample_world)
  = render sample_parser Plugin (DArray abc)
      (with_settings (with_batchSize 2) sample_world)
  /\ run_frames sample_parser Class 5
       (render sample_parser Class (DArray abc)
          (with_settings (with_batchSize 2) sample_world))
     = run_frames sample_parser Plugin 5
         (render sample_parser Plugin (DArray abc)
            (with_settings (with_batchSize 2) sample_world)).
Proof.
  apply (surfaces_render_alike sample_parser abc
           (with_settings (with_batchSize 2) sample_world) 5).
  - repeat constructor; intros key v; unfold named;
      (destruct (decide (key = "name")) as [->|Hne];
       [rewrite lookup_singleton_eq; intros [= <-]; reflexivity
       |rewrite lookup_singleton_ne by congruence; discriminate]).
  - reflexivity.
Defined.
